(** * uplink.py: the retry-aware fetch-and-normalize pipeline

    A shallow embedding of [src/uplink.py] (the Meraki uplink status export)
    and the properties its specification states about it.

    Python values are embedded as the JSON-shaped values [json.loads]
    produces; exceptions are results of an error monad; the HTTP session,
    [time.sleep], [print] and the two CSV files are fields of an explicit
    world that a state-and-error monad threads through the program. *)

From stdpp Require Import base option list strings gmap fin_maps pretty.
From Stdlib Require Import ZArith Lia.

Local Open Scope string_scope.

(** ** Exceptions and the error monad *)

(** The exceptions the script can meet.  [TransportError] stands for any
    exception of [session.get] outside the four classes caught in
    [jsonload]; [SystemExit] is raised by [sys.exit]. *)
Inductive exn : Type :=
| KeyError
| IndexError
| TypeError
| AttributeError
| ValueError
| JSONDecodeError
| TransportError
| SystemExit (msg : string).

Inductive res (A : Type) : Type :=
| Ok (a : A)
| Raise (e : exn).

Arguments Ok {A} a.
Arguments Raise {A} e.

#[global] Instance res_ret : MRet res := fun A a => Ok a.
#[global] Instance res_bind : MBind res := fun A B f m =>
  match m with
  | Ok a => f a
  | Raise e => Raise e
  end.

Definition is_ok {A : Type} (r : res A) : bool :=
  match r with
  | Ok _ => true
  | Raise _ => false
  end.

(** What one call of [session.get(url, headers=headers).text] can do: hand
    back the body text, raise one of the four exceptions [jsonload] catches
    (ConnectionError, RemoteDisconnected, ProtocolError, HTTPException), or
    raise something else. *)
Inductive response : Type :=
| Body (text : string)
| TransientError
| OtherError.

(** ** Python values *)

(** JSON numbers with a fraction or an exponent become Python floats.  They
    are kept abstract: the script only compares them and applies [str] to
    them. *)
Class Floats : Type := {
  float : Type;
  float_eqb : float -> float -> bool;        (* f == g *)
  float_eq_int : float -> Z -> bool;         (* f == z, either way round *)
  float_str : float -> string                (* str(f) *)
}.

(** A dict keeps its insertion order, hence the association list; a string
    is a sequence of characters. *)
#[warnings="-register-all"]
Inductive pyval `{Floats} : Type :=
| PNone
| PBool (b : bool)
| PInt (z : Z)
| PFloat (f : float)
| PStr (s : string)
| PList (l : list pyval)
| PDict (d : list (string * pyval)).

(** What the script takes from its libraries and its environment:
    - [container_repr]: [str] of a list or a dict, Python's [repr] of it;
    - [transport], [session_get]: the HTTP session and the remote endpoint
      behind it as a state machine, [session_get url t] being the outcome of
      one request and the next state;
    - [json_loads]: [json.loads], [None] standing for a JSONDecodeError; the
      empty text is no JSON document;
    - [today]: [str(datetime.date.today())]. *)
Class Runtime `{Floats} : Type := {
  container_repr : pyval -> string;
  transport : Type;
  session_get : string -> transport -> response * transport;
  json_loads : string -> option pyval;
  json_loads_empty : json_loads "" = None;
  today : string
}.

Section Uplink.

Context `{RT : Runtime}.

Definition bool_int (b : bool) : Z := if b then 1%Z else 0%Z.

(** First binding of a key, as [d[key]] finds it. *)
Fixpoint assoc (k : string) (d : list (string * pyval)) : option pyval :=
  match d with
  | [] => None
  | (k', v) :: d' => if String.eqb k k' then Some v else assoc k d'
  end.

(** The [==] operator on JSON-shaped values. *)
Fixpoint py_eq (a b : pyval) {struct a} : bool :=
  match a, b with
  | PNone, PNone => true
  | PBool x, PBool y => Bool.eqb x y
  | PBool x, PInt z => Z.eqb (bool_int x) z
  | PInt z, PBool x => Z.eqb z (bool_int x)
  | PBool x, PFloat f => float_eq_int f (bool_int x)
  | PFloat f, PBool x => float_eq_int f (bool_int x)
  | PInt x, PInt y => Z.eqb x y
  | PInt z, PFloat f => float_eq_int f z
  | PFloat f, PInt z => float_eq_int f z
  | PFloat f, PFloat g => float_eqb f g
  | PStr s, PStr t => String.eqb s t
  | PList l, PList m =>
      (fix list_eq (l m : list pyval) {struct l} : bool :=
         match l, m with
         | [], [] => true
         | x :: l', y :: m' => py_eq x y && list_eq l' m'
         | _, _ => false
         end) l m
  | PDict d, PDict e =>
      Nat.eqb (length d) (length e) &&
      (fix dict_sub (d : list (string * pyval)) {struct d} : bool :=
         match d with
         | [] => true
         | (k, v) :: d' =>
             match assoc k e with
             | Some w => py_eq v w
             | None => false
             end && dict_sub d'
         end) d
  | _, _ => false
  end.

(** [str(x)]. *)
Definition py_str (x : pyval) : string :=
  match x with
  | PNone => "None"
  | PBool true => "True"
  | PBool false => "False"
  | PInt z => pretty z
  | PFloat f => float_str f
  | PStr s => s
  | PList _ | PDict _ => container_repr x
  end.

(** [s + x] for a string [s]: only a string can be added to a string. *)
Definition str_add (s : string) (x : pyval) : res string :=
  match x with
  | PStr t => Ok (s ++ t)
  | _ => Raise TypeError
  end.

(** [x[key]] for a string [key]. *)
Definition getitem (x : pyval) (key : string) : res pyval :=
  match x with
  | PDict d =>
      match assoc key d with
      | Some v => Ok v
      | None => Raise KeyError
      end
  | _ => Raise TypeError
  end.

(** [x[0]]. *)
Definition getitem0 (x : pyval) : res pyval :=
  match x with
  | PList (v :: _) => Ok v
  | PList [] => Raise IndexError
  | PStr (String c _) => Ok (PStr (String c EmptyString))
  | PStr EmptyString => Raise IndexError
  | PDict _ => Raise KeyError
  | _ => Raise TypeError
  end.

Fixpoint string_take (n : nat) (s : string) : string :=
  match n, s with
  | S n', String c s' => String c (string_take n' s')
  | _, _ => EmptyString
  end.

(** [x[:2]]: strings and lists can be sliced, nothing else can. *)
Definition slice2 (x : pyval) : res pyval :=
  match x with
  | PStr s => Ok (PStr (string_take 2 s))
  | PList l => Ok (PList (take 2 l))
  | _ => Raise TypeError
  end.

(** [x.keys()], the keys in iteration order. *)
Definition keys (x : pyval) : res (list string) :=
  match x with
  | PDict d => Ok (d.*1)
  | _ => Raise AttributeError
  end.

(** [for x in v]: a list yields its elements, a dict its keys, a string its
    characters; nothing else can be iterated. *)
Fixpoint chars (s : string) : list pyval :=
  match s with
  | EmptyString => []
  | String c s' => PStr (String c EmptyString) :: chars s'
  end.

Definition iter (x : pyval) : res (list pyval) :=
  match x with
  | PList l => Ok l
  | PDict d => Ok (PStr <$> d.*1)
  | PStr s => Ok (chars s)
  | _ => Raise TypeError
  end.

Definition is_None (x : pyval) : bool :=
  match x with
  | PNone => true
  | _ => false
  end.

(** [[x for x in l if p(x)]], where evaluating the condition may raise. *)
Fixpoint filter_res {A : Type} (p : A -> res bool) (l : list A) : res (list A) :=
  match l with
  | [] => Ok []
  | x :: l' =>
      b ← p x;
      r ← filter_res p l';
      mret (if b : bool then x :: r else r)
  end.

(** A [for] loop whose body updates an accumulator and may raise. *)
Fixpoint fold_res {A B : Type} (f : B -> A -> res B) (b : B) (l : list A) : res B :=
  match l with
  | [] => Ok b
  | x :: l' => b' ← f b x; fold_res f b' l'
  end.

(** ** The world and the program monad *)

(** A row as [csv.DictWriter] hands it to the underlying writer: one value
    per field name. *)
Record csvfile : Type := mkFile {
  file_name : string;
  file_rows : list (list pyval)
}.

Record world : Type := mkWorld {
  net : transport;          (* the session and the endpoint *)
  gets : list string;       (* URLs requested so far, latest first *)
  slept : nat;              (* seconds spent in time.sleep *)
  stdout : list string;     (* lines printed, latest first *)
  csv_file1 : csvfile;      (* the appliances report *)
  csv_file2 : csvfile       (* the other devices report *)
}.

Definition prog (A : Type) : Type := world -> res A * world.

#[global] Instance prog_ret : MRet prog := fun A a w => (Ok a, w).
#[global] Instance prog_bind : MBind prog := fun A B f m w =>
  match m w with
  | (Ok a, w') => f a w'
  | (Raise e, w') => (Raise e, w')
  end.

Definition lift {A : Type} (r : res A) : prog A := fun w => (r, w).

Definition raise {A : Type} (e : exn) : prog A := fun w => (Raise e, w).

(** [try: m  except: h] with a bare [except], which catches everything. *)
Definition try_except {A : Type} (m : prog A) (h : prog A) : prog A := fun w =>
  match m w with
  | (Ok a, w') => (Ok a, w')
  | (Raise _, w') => h w'
  end.

(** [for x in l: body(x)]. *)
Fixpoint for_each {A : Type} (l : list A) (body : A -> prog unit) : prog unit :=
  match l with
  | [] => mret tt
  | x :: l' => _ ← body x; for_each l' body
  end.

Definition sleep (n : nat) : prog unit := fun w =>
  (Ok tt, mkWorld (net w) (gets w) (slept w + n) (stdout w) (csv_file1 w) (csv_file2 w)).

Definition print (line : string) : prog unit := fun w =>
  (Ok tt, mkWorld (net w) (gets w) (slept w) (line :: stdout w) (csv_file1 w) (csv_file2 w)).

Inductive fileno : Type := File1 | File2.

Definition get_file (n : fileno) (w : world) : csvfile :=
  match n with
  | File1 => csv_file1 w
  | File2 => csv_file2 w
  end.

Definition set_file (n : fileno) (f : csvfile) (w : world) : world :=
  match n with
  | File1 => mkWorld (net w) (gets w) (slept w) (stdout w) f (csv_file2 w)
  | File2 => mkWorld (net w) (gets w) (slept w) (stdout w) (csv_file1 w) f
  end.

(** [open(name, 'w', encoding='utf-8')]: an empty file of that name. *)
Definition open_w (n : fileno) (name : string) : prog unit := fun w =>
  (Ok tt, set_file n (mkFile name []) w).

Definition write_row (n : fileno) (row : list pyval) : prog unit := fun w =>
  (Ok tt, set_file n (mkFile (file_name (get_file n w)) (file_rows (get_file n w) ++ [row])) w).

(** ** csv.DictWriter *)

Definition restval : pyval := PStr "".

(** [DictWriter._dict_to_list] with the default [extrasaction='raise']: a key
    outside the field names is a ValueError; a field name the row lacks gets
    [restval]. *)
Definition dict_to_list (fieldnames : list string) (rowdict : gmap string pyval)
  : res (list pyval) :=
  if forallb (fun k => bool_decide (k ∈ fieldnames)) (map_to_list rowdict).*1
  then Ok ((fun key => default restval (rowdict !! key)) <$> fieldnames)
  else Raise ValueError.

Definition writeheader (n : fileno) (fieldnames : list string) : prog unit :=
  write_row n (PStr <$> fieldnames).

Definition writerow (n : fileno) (fieldnames : list string) (rowdict : gmap string pyval)
  : prog unit :=
  row ← lift (dict_to_list fieldnames rowdict);
  write_row n row.

(** How the writer renders one value under [csvquoting]
    (QUOTE_NONNUMERIC): [None] is the empty text, a string is itself, anything
    else goes through [str]; every value but a number is quoted.  The pair is
    (quoted, text), before quote doubling. *)
Definition csv_cell (v : pyval) : bool * string :=
  match v with
  | PNone => (true, "")
  | PStr s => (true, s)
  | PBool _ | PInt _ | PFloat _ => (false, py_str v)
  | PList _ | PDict _ => (true, py_str v)
  end.

(** ** The fetcher *)

Definition base_url : string := "https://api.meraki.com/api/v0/".

(** ['https://api.meraki.com/api/v0/' + path]. *)
Definition url_of (path : string) : string := base_url ++ path.

(** The body of the [try] in [jsonload]: the request, its [.text], and the
    [except] clause that sleeps one second and leaves [jsondata] as it
    was. *)
Definition get_text (url : string) (jsondata : string) : prog string := fun w =>
  let '(r, t) := session_get url (net w) in
  let w' := mkWorld t (url :: gets w) (slept w) (stdout w) (csv_file1 w) (csv_file2 w) in
  match r with
  | Body text => (Ok text, w')
  | TransientError => (_ ← sleep 1; mret jsondata) w'
  | OtherError => (Raise TransportError, w')
  end.

(** The [while] loop of [jsonload]; [retries] counts down from 3. *)
Fixpoint jsonload_while (path jsondata : string) (retries : nat) : prog string :=
  match retries with
  | 0 => mret jsondata
  | S retries' =>
      if negb (0 <? String.length jsondata)%nat then
        jsondata' ← get_text (url_of path) jsondata;
        jsonload_while path jsondata' retries'
      else mret jsondata
  end.

Definition loads (jsondata : string) : prog pyval :=
  match json_loads jsondata with
  | Some v => mret v
  | None => raise JSONDecodeError
  end.

Definition jsonload (path : string) : prog pyval :=
  jsondata ← jsonload_while path "" 3;
  loads jsondata.

(** ** The network resolver *)

Definition get_network (network_id : pyval) (networks : pyval) : res pyval :=
  elements ← iter networks;
  matches ← filter_res (fun element =>
                          id ← getitem element "id";
                          mret (py_eq network_id id)) elements;
  getitem0 (PList matches).

(** ** The inventory classifier *)

Definition appliance_prefixes : list string := ["MX"; "Z1"; "Z3"; "vM"].

(** [x in ('MX', 'Z1', 'Z3', 'vM')]. *)
Definition in_prefixes (x : pyval) : bool :=
  existsb (fun p => py_eq (PStr p) x) appliance_prefixes.

(** The condition of the first comprehension; [and] evaluates its right
    operand only when the left one holds. *)
Definition is_appliance (device : pyval) : res bool :=
  model ← getitem device "model";
  prefix ← slice2 model;
  if in_prefixes prefix then
    network_id ← getitem device "networkId";
    mret (negb (is_None network_id))
  else mret false.

(** The objects of the inventory list, each with its position: [in] on a
    list holds for an element that is the same object or compares equal. *)
Definition objects (l : list pyval) : list (nat * pyval) := imap (fun i x => (i, x)) l.

Definition py_in (x : nat * pyval) (l : list (nat * pyval)) : bool :=
  existsb (fun y => Nat.eqb y.1 x.1 || py_eq y.2 x.2) l.

(** The condition of the second comprehension. *)
Definition is_other (appliances : list (nat * pyval)) (device : nat * pyval) : res bool :=
  if negb (py_in device appliances) then
    network_id ← getitem device.2 "networkId";
    mret (negb (is_None network_id))
  else mret false.

(** Lines 100 and 101: the two partitions, in inventory order. *)
Definition classify (inventory : pyval) : res (list pyval * list pyval) :=
  devs ← iter inventory;
  appliances ← filter_res (fun d => is_appliance d.2) (objects devs);
  devices ← filter_res (is_other appliances) (objects devs);
  mret (appliances.*2, devices.*2).

(** ** What both device loops share *)

(** ['networks/' + device['networkId'] + '/devices/' + device['serial']]. *)
Definition device_path (device : pyval) : res string :=
  network_id ← getitem device "networkId";
  s ← str_add "networks/" network_id;
  serial ← getitem device "serial";
  str_add (s ++ "/devices/") serial.

(** The name of a device, its serial when it has no name. *)
Definition device_name_of (device_info : pyval) : res pyval :=
  ks ← keys device_info;
  if bool_decide ("name" ∈ ks) then getitem device_info "name"
  else getitem device_info "serial".

(** [dict.fromkeys(ks)]: every key bound to [None]. *)
Definition fromkeys (ks : list string) : gmap string pyval :=
  list_to_map ((fun k => (k, PNone)) <$> ks).

(** [bucket[key]]. *)
Definition lookup_key (bucket : gmap string pyval) (key : string) : res pyval :=
  match bucket !! key with
  | Some v => Ok v
  | None => Raise KeyError
  end.

(** [for key in uplink.keys(): bucket[key] = str(uplink[key])]. *)
Definition copy_fields (uplink : pyval) (bucket : gmap string pyval)
  : res (gmap string pyval) :=
  ks ← keys uplink;
  fold_res (fun b key =>
              v ← getitem uplink key;
              mret (<[key := PStr (py_str v)]> b)) bucket ks.

(** ** The appliances report *)

Definition fieldnames1 : list string :=
  ["TimeZone"; "Network"; "Device"; "Serial"; "MAC"; "Model"; "firmware"; "geolocation";
   "WAN1 Status"; "WAN1 IP"; "WAN1 Gateway"; "WAN1 Public IP"; "WAN1 DNS"; "WAN1 Static";
   "WAN2 Status"; "WAN2 IP"; "WAN2 Gateway"; "WAN2 Public IP"; "WAN2 DNS"; "WAN2 Static";
   "Cellular Status"; "Cellular IP"; "Cellular Provider"; "Cellular Public IP";
   "Cellular Model"; "Cellular Connection"; "Performance"].

Definition wan_keys : list string :=
  ["interface"; "status"; "ip"; "gateway"; "publicIp"; "dns"; "usingStaticIp"].

Definition cellular_keys : list string :=
  ["interface"; "status"; "ip"; "provider"; "publicIp"; "model"; "connectionType"].

(** [uplinks_info], a dict of the three keys 'WAN1', 'WAN2' and 'Cellular',
    each bound to a dict of its own. *)
Record uplinks_info : Type := mkInfo {
  WAN1 : gmap string pyval;
  WAN2 : gmap string pyval;
  Cellular : gmap string pyval
}.

(** Lines 129 to 132. *)
Definition uplinks_info_init : uplinks_info :=
  mkInfo (fromkeys wan_keys) (fromkeys wan_keys) (fromkeys cellular_keys).

(** The body of the loop over [uplinks], lines 135 to 143. *)
Definition dispatch (info : uplinks_info) (uplink : pyval) : res uplinks_info :=
  interface ← getitem uplink "interface";
  if py_eq interface (PStr "WAN 1") then
    b ← copy_fields uplink (WAN1 info);
    mret (mkInfo b (WAN2 info) (Cellular info))
  else if py_eq interface (PStr "WAN 2") then
    b ← copy_fields uplink (WAN2 info);
    mret (mkInfo (WAN1 info) b (Cellular info))
  else if py_eq interface (PStr "Cellular") then
    b ← copy_fields uplink (Cellular info);
    mret (mkInfo (WAN1 info) (WAN2 info) b)
  else mret info.

(** Lines 129 to 143 after the fetch: the three buckets filled from the
    uplink list. *)
Definition normalize_appliance (uplinks : pyval) : res uplinks_info :=
  l ← iter uplinks;
  fold_res dispatch uplinks_info_init l.

(** The dict display of lines 144 to 171; its values are evaluated in
    order. *)
Definition appliance_csvline (network network_name device_name device_info appliance : pyval)
    (info : uplinks_info) : res (gmap string pyval) :=
  timeZone ← getitem network "timeZone";
  serial ← getitem appliance "serial";
  mac ← getitem appliance "mac";
  model ← getitem appliance "model";
  firmware ← getitem device_info "firmware";
  lat ← getitem device_info "lat";
  lng ← getitem device_info "lng";
  w1_status ← lookup_key (WAN1 info) "status";
  w1_ip ← lookup_key (WAN1 info) "ip";
  w1_gateway ← lookup_key (WAN1 info) "gateway";
  w1_publicIp ← lookup_key (WAN1 info) "publicIp";
  w1_dns ← lookup_key (WAN1 info) "dns";
  w1_static ← lookup_key (WAN1 info) "usingStaticIp";
  w2_status ← lookup_key (WAN2 info) "status";
  w2_ip ← lookup_key (WAN2 info) "ip";
  w2_gateway ← lookup_key (WAN2 info) "gateway";
  w2_publicIp ← lookup_key (WAN2 info) "publicIp";
  w2_dns ← lookup_key (WAN2 info) "dns";
  w2_static ← lookup_key (WAN2 info) "usingStaticIp";
  c_status ← lookup_key (Cellular info) "status";
  c_ip ← lookup_key (Cellular info) "ip";
  c_provider ← lookup_key (Cellular info) "provider";
  c_publicIp ← lookup_key (Cellular info) "publicIp";
  c_model ← lookup_key (Cellular info) "model";
  c_connection ← lookup_key (Cellular info) "connectionType";
  mret (list_to_map
    [("TimeZone", PStr (py_str timeZone));
     ("Network", network_name);
     ("Device", device_name);
     ("Serial", serial);
     ("MAC", mac);
     ("Model", model);
     ("firmware", firmware);
     ("geolocation", PStr ("https://www.google.com/maps/@" ++ py_str lat ++ ","
                             ++ py_str lng ++ ",15z"));
     ("WAN1 Status", w1_status);
     ("WAN1 IP", w1_ip);
     ("WAN1 Gateway", w1_gateway);
     ("WAN1 Public IP", w1_publicIp);
     ("WAN1 DNS", w1_dns);
     ("WAN1 Static", w1_static);
     ("WAN2 Status", w2_status);
     ("WAN2 IP", w2_ip);
     ("WAN2 Gateway", w2_gateway);
     ("WAN2 Public IP", w2_publicIp);
     ("WAN2 DNS", w2_dns);
     ("WAN2 Static", w2_static);
     ("Cellular Status", c_status);
     ("Cellular IP", c_ip);
     ("Cellular Provider", c_provider);
     ("Cellular Public IP", c_publicIp);
     ("Cellular Model", c_model);
     ("Cellular Connection", c_connection)]).

(** Lines 172 and 173: [if perfscore != None: csvline['Performance'] = perfscore]. *)
Definition add_performance (perfscore : pyval) (csvline : gmap string pyval)
  : gmap string pyval :=
  if negb (py_eq perfscore PNone) then <["Performance" := perfscore]> csvline
  else csvline.

(** Line 125, the body of the [try]: the performance fetch and the lookup
    of its 'perfScore'. *)
Definition perfscore_request (appliance : pyval) : prog pyval :=
  path ← lift (device_path appliance);
  performance ← jsonload (path ++ "/performance");
  lift (getitem performance "perfScore").

(** Lines 124 to 127: the performance score, [None] on any exception. *)
Definition fetch_perfscore (appliance : pyval) : prog pyval :=
  try_except (perfscore_request appliance) (mret PNone).

(** Lines 129 to 174 but the fetch: what is done with the uplink list of an
    appliance. *)
Definition appliance_emit (network network_name device_name device_info perfscore
    appliance uplinks : pyval) : prog unit :=
  info ← lift (normalize_appliance uplinks);
  csvline ← lift (appliance_csvline network network_name device_name device_info
                    appliance info);
  writerow File1 fieldnames1 (add_performance perfscore csvline).

(** The body of the loop over [appliances], lines 113 to 174. *)
Definition appliance_body (networks appliance : pyval) : prog unit :=
  network_id ← lift (getitem appliance "networkId");
  network ← lift (get_network network_id networks);
  network_name ← lift (getitem network "name");
  line ← lift (str_add "Looking into network " network_name);
  _ ← print line;
  path ← lift (device_path appliance);
  device_info ← jsonload path;
  device_name ← lift (device_name_of device_info);
  perfscore ← fetch_perfscore appliance;
  line ← lift (str_add "Found appliance " device_name);
  _ ← print line;
  path ← lift (device_path appliance);
  uplinks ← jsonload (path ++ "/uplink");
  appliance_emit network network_name device_name device_info perfscore appliance uplinks.

(** ** The other devices report *)

Definition fieldnames2 : list string :=
  ["TimeZone"; "Network"; "Device"; "Serial"; "MAC"; "Model"; "Status"; "IP"; "Gateway";
   "Public IP"; "DNS"; "VLAN"; "Static"].

Definition other_keys : list string :=
  ["interface"; "status"; "ip"; "gateway"; "publicIp"; "dns"; "vlan"; "usingStaticIp"].

(** The dict display of lines 208 to 222. *)
Definition other_csvline (network network_name device_name device : pyval)
    (uplink_info : gmap string pyval) : res (gmap string pyval) :=
  timeZone ← getitem network "timeZone";
  serial ← getitem device "serial";
  mac ← getitem device "mac";
  model ← getitem device "model";
  status ← lookup_key uplink_info "status";
  ip ← lookup_key uplink_info "ip";
  gateway ← lookup_key uplink_info "gateway";
  publicIp ← lookup_key uplink_info "publicIp";
  dns ← lookup_key uplink_info "dns";
  vlan ← lookup_key uplink_info "vlan";
  static ← lookup_key uplink_info "usingStaticIp";
  mret (list_to_map
    [("TimeZone", PStr (py_str timeZone));
     ("Network", network_name);
     ("Device", device_name);
     ("Serial", serial);
     ("MAC", mac);
     ("Model", model);
     ("Status", status);
     ("IP", ip);
     ("Gateway", gateway);
     ("Public IP", publicIp);
     ("DNS", dns);
     ("VLAN", vlan);
     ("Static", static)]).

(** Lines 197 and 201 to 223: what is done with the uplink list of a device
    of the second partition; [continue] ends the body with nothing
    written. *)
Definition other_emit (network network_name device_name device uplink : pyval)
  : prog unit :=
  if py_eq uplink (PList []) then mret tt
  else
    uplink0 ← lift (getitem0 uplink);
    uplink_info ← lift (copy_fields uplink0 (fromkeys other_keys));
    csvline ← lift (other_csvline network network_name device_name device uplink_info);
    writerow File2 fieldnames2 csvline.

(** The body of the loop over [devices], lines 188 to 223. *)
Definition other_body (networks device : pyval) : prog unit :=
  network_id ← lift (getitem device "networkId");
  network ← lift (get_network network_id networks);
  network_name ← lift (getitem network "name");
  line ← lift (str_add "Looking into network " network_name);
  _ ← print line;
  path ← lift (device_path device);
  device_info ← jsonload path;
  device_name ← lift (device_name_of device_info);
  line ← lift (str_add "Found device " device_name);
  _ ← print line;
  path ← lift (device_path device);
  uplink ← jsonload (path ++ "/uplink");
  other_emit network network_name device_name device uplink.

(** ** The script *)

(** Lines 92 to 224, for the organization id [ORG_ID]; the API key is part of
    the session. *)
Definition main (ORG_ID : string) : prog unit :=
  name ← try_except
           (organization ← jsonload ("organizations/" ++ ORG_ID);
            lift (getitem organization "name"))
           (raise (SystemExit "Incorrect API key or org ID, as no valid data returned"));
  networks ← jsonload ("organizations/" ++ ORG_ID ++ "/networks");
  inventory ← jsonload ("organizations/" ++ ORG_ID ++ "/inventory");
  '(appliances, devices) ← lift (classify inventory);
  prefix ← lift (str_add "" name);
  _ ← open_w File1 (prefix ++ " appliances - " ++ today ++ ".csv");
  _ ← writeheader File1 fieldnames1;
  _ ← for_each appliances (appliance_body networks);
  _ ← open_w File2 (prefix ++ " other devices - " ++ today ++ ".csv");
  _ ← writeheader File2 fieldnames2;
  for_each devices (other_body networks).

(** ** Vocabulary of the properties *)

(** The transport answers the next requests for [url] with [rs], in order. *)
Fixpoint serves (url : string) (rs : list response) (t : transport) : Prop :=
  match rs with
  | [] => True
  | r :: rs' => (session_get url t).1 = r ∧ serves url rs' (session_get url t).2
  end.

Definition is_transient (r : response) : bool :=
  match r with
  | TransientError => true
  | _ => false
  end.

(** The outcomes after which [jsonload] asks again: an exception it catches,
    or an empty body. *)
Definition retriable (r : response) : bool :=
  match r with
  | TransientError => true
  | Body text => negb (0 <? String.length text)%nat
  | OtherError => false
  end.

Definition transient_count (rs : list response) : nat :=
  length (List.filter is_transient rs).

(** The world after [jsonload] has made [n] requests for [url] and slept [k]
    seconds, the transport being left in state [t]. *)
Definition after_requests (url : string) (n k : nat) (t : transport) (w : world) : world :=
  mkWorld t (replicate n url ++ gets w) (slept w + k) (stdout w) (csv_file1 w) (csv_file2 w).

(** A network record matches a network id. *)
Definition id_matches (network_id element : pyval) : bool :=
  match getitem element "id" with
  | Ok id => py_eq network_id id
  | Raise _ => false
  end.

(** An inventory record as the API delivers it: an object with a model code
    that is a string, and a network id that may be null. *)
Definition inventory_device (device : pyval) : bool :=
  match getitem device "model", getitem device "networkId" with
  | Ok (PStr _), Ok _ => true
  | _, _ => false
  end.

(** The classification in the words of the specification: a device is
    assigned when its network id is not null; an assigned device is an
    appliance when the first two characters of its model code are one of the
    prefixes, and an other device when they are not. *)
Definition spec_assigned (device : pyval) : bool :=
  match getitem device "networkId" with
  | Ok network_id => negb (is_None network_id)
  | Raise _ => false
  end.

Definition spec_prefix (device : pyval) : bool :=
  match getitem device "model" with
  | Ok (PStr model) => bool_decide (string_take 2 model ∈ appliance_prefixes)
  | _ => false
  end.

Definition spec_appliance (device : pyval) : bool :=
  spec_assigned device && spec_prefix device.

Definition spec_other (device : pyval) : bool :=
  spec_assigned device && negb (spec_prefix device).

(** The three interface blocks of an appliance row, with the label that
    selects each, its bucket in [uplinks_info] and its columns. *)
Inductive block : Type := BlockWAN1 | BlockWAN2 | BlockCellular.

#[global] Instance block_eq_dec : EqDecision block.
Proof. solve_decision. Defined.

Definition block_of (interface : pyval) : option block :=
  if py_eq interface (PStr "WAN 1") then Some BlockWAN1
  else if py_eq interface (PStr "WAN 2") then Some BlockWAN2
  else if py_eq interface (PStr "Cellular") then Some BlockCellular
  else None.

Definition bucket (b : block) (info : uplinks_info) : gmap string pyval :=
  match b with
  | BlockWAN1 => WAN1 info
  | BlockWAN2 => WAN2 info
  | BlockCellular => Cellular info
  end.

Definition set_bucket (b : block) (m : gmap string pyval) (info : uplinks_info)
  : uplinks_info :=
  match b with
  | BlockWAN1 => mkInfo m (WAN2 info) (Cellular info)
  | BlockWAN2 => mkInfo (WAN1 info) m (Cellular info)
  | BlockCellular => mkInfo (WAN1 info) (WAN2 info) m
  end.

Definition block_keys (b : block) : list string :=
  match b with
  | BlockWAN1 | BlockWAN2 => wan_keys
  | BlockCellular => cellular_keys
  end.

Definition block_columns (b : block) : list string :=
  match b with
  | BlockWAN1 =>
      ["WAN1 Status"; "WAN1 IP"; "WAN1 Gateway"; "WAN1 Public IP"; "WAN1 DNS"; "WAN1 Static"]
  | BlockWAN2 =>
      ["WAN2 Status"; "WAN2 IP"; "WAN2 Gateway"; "WAN2 Public IP"; "WAN2 DNS"; "WAN2 Static"]
  | BlockCellular =>
      ["Cellular Status"; "Cellular IP"; "Cellular Provider"; "Cellular Public IP";
       "Cellular Model"; "Cellular Connection"]
  end.

(** An uplink entry as the API delivers it: an object with an interface
    label. *)
Definition uplink_entry (uplink : pyval) : bool := is_ok (getitem uplink "interface").

Definition entry_block (uplink : pyval) : option block :=
  match getitem uplink "interface" with
  | Ok interface => block_of interface
  | Raise _ => None
  end.

Definition entry_dict (uplink : pyval) : list (string * pyval) :=
  match uplink with
  | PDict d => d
  | _ => []
  end.

(** A bucket after the fields of the object [d] were copied into it. *)
Definition copied (d : list (string * pyval)) (m : gmap string pyval)
  : gmap string pyval :=
  foldl (fun m key =>
           match assoc key d with
           | Some v => <[key := PStr (py_str v)]> m
           | None => m
           end) m d.*1.

(** The buckets after one more uplink entry. *)
Definition absorb (info : uplinks_info) (uplink : pyval) : uplinks_info :=
  match entry_block uplink with
  | Some b => set_bucket b (copied (entry_dict uplink) (bucket b info)) info
  | None => info
  end.

(** The value of a column in a written row. *)
Definition field (fieldnames : list string) (name : string) (row : list pyval)
  : option pyval :=
  assoc name (zip fieldnames row).

(** The value a bucket holds for a key, [None] when it holds none. *)
Definition cell (m : gmap string pyval) (key : string) : pyval :=
  default PNone (m !! key).

(** The row of an appliance, from the values that go into it: the
    Performance column holds [restval] when there is no score. *)
Definition appliance_row (timeZone network_name device_name serial mac model firmware
    lat lng perfscore : pyval) (info : uplinks_info) : list pyval :=
  [PStr (py_str timeZone); network_name; device_name; serial; mac; model; firmware;
   PStr ("https://www.google.com/maps/@" ++ py_str lat ++ "," ++ py_str lng ++ ",15z");
   cell (WAN1 info) "status"; cell (WAN1 info) "ip"; cell (WAN1 info) "gateway";
   cell (WAN1 info) "publicIp"; cell (WAN1 info) "dns"; cell (WAN1 info) "usingStaticIp";
   cell (WAN2 info) "status"; cell (WAN2 info) "ip"; cell (WAN2 info) "gateway";
   cell (WAN2 info) "publicIp"; cell (WAN2 info) "dns"; cell (WAN2 info) "usingStaticIp";
   cell (Cellular info) "status"; cell (Cellular info) "ip";
   cell (Cellular info) "provider"; cell (Cellular info) "publicIp";
   cell (Cellular info) "model"; cell (Cellular info) "connectionType";
   if is_None perfscore then restval else perfscore].

(** The row of another device, from the values that go into it. *)
Definition other_row (timeZone network_name device_name serial mac model : pyval)
    (uplink_info : gmap string pyval) : list pyval :=
  [PStr (py_str timeZone); network_name; device_name; serial; mac; model;
   cell uplink_info "status"; cell uplink_info "ip"; cell uplink_info "gateway";
   cell uplink_info "publicIp"; cell uplink_info "dns"; cell uplink_info "vlan";
   cell uplink_info "usingStaticIp"].

(** The world with one more row in a report. *)
Definition with_row (n : fileno) (row : list pyval) (w : world) : world :=
  (write_row n row w).2.

(** Two worlds with the same reports. *)
Definition same_reports (w w' : world) : Prop :=
  csv_file1 w' = csv_file1 w ∧ csv_file2 w' = csv_file2 w.

Definition is_dict (x : pyval) : bool :=
  match x with
  | PDict _ => true
  | _ => false
  end.

(** The values met while the body of the appliances loop runs with every
    fetch but the performance one succeeding: the fields of the inventory
    record, the network record its network id resolves to, the device
    detail, the score (whatever the performance fetch did), the uplink list,
    and the worlds after each fetch. *)
Record appliance_run : Type := mkApplianceRun {
  ar_network_id : string;
  ar_serial : string;
  ar_mac : pyval;
  ar_model : pyval;
  ar_network : pyval;
  ar_network_name : string;
  ar_timeZone : pyval;
  ar_device_info : pyval;
  ar_device_name : string;
  ar_firmware : pyval;
  ar_lat : pyval;
  ar_lng : pyval;
  ar_perfscore : pyval;
  ar_uplinks : list pyval;
  ar_detail_world : world;
  ar_score_world : world;
  ar_uplink_world : world
}.

Definition ar_path (r : appliance_run) : string :=
  (("networks/" ++ ar_network_id r) ++ "/devices/") ++ ar_serial r.

Definition appliance_fetches_succeed (networks appliance : pyval) (w : world)
    (r : appliance_run) : Prop :=
  getitem appliance "networkId" = Ok (PStr (ar_network_id r)) ∧
  getitem appliance "serial" = Ok (PStr (ar_serial r)) ∧
  getitem appliance "mac" = Ok (ar_mac r) ∧
  getitem appliance "model" = Ok (ar_model r) ∧
  get_network (PStr (ar_network_id r)) networks = Ok (ar_network r) ∧
  getitem (ar_network r) "name" = Ok (PStr (ar_network_name r)) ∧
  getitem (ar_network r) "timeZone" = Ok (ar_timeZone r) ∧
  jsonload (ar_path r) (print ("Looking into network " ++ ar_network_name r) w).2 =
    (Ok (ar_device_info r), ar_detail_world r) ∧
  device_name_of (ar_device_info r) = Ok (PStr (ar_device_name r)) ∧
  getitem (ar_device_info r) "firmware" = Ok (ar_firmware r) ∧
  getitem (ar_device_info r) "lat" = Ok (ar_lat r) ∧
  getitem (ar_device_info r) "lng" = Ok (ar_lng r) ∧
  fetch_perfscore appliance (ar_detail_world r) = (Ok (ar_perfscore r), ar_score_world r) ∧
  jsonload (ar_path r ++ "/uplink")
    (print ("Found appliance " ++ ar_device_name r) (ar_score_world r)).2 =
    (Ok (PList (ar_uplinks r)), ar_uplink_world r) ∧
  Forall (fun uplink => uplink_entry uplink = true) (ar_uplinks r).

(** The row of the run. *)
Definition ar_row (r : appliance_run) : list pyval :=
  appliance_row (ar_timeZone r) (PStr (ar_network_name r)) (PStr (ar_device_name r))
    (PStr (ar_serial r)) (ar_mac r) (ar_model r) (ar_firmware r) (ar_lat r) (ar_lng r)
    (ar_perfscore r) (foldl absorb uplinks_info_init (ar_uplinks r)).

(** The same for the body of the loop over the other devices. *)
Record other_run : Type := mkOtherRun {
  or_network_id : string;
  or_serial : string;
  or_mac : pyval;
  or_model : pyval;
  or_network : pyval;
  or_network_name : string;
  or_timeZone : pyval;
  or_device_info : pyval;
  or_device_name : string;
  or_uplink : list pyval;
  or_detail_world : world;
  or_uplink_world : world
}.

Definition or_path (r : other_run) : string :=
  (("networks/" ++ or_network_id r) ++ "/devices/") ++ or_serial r.

Definition other_fetches_succeed (networks device : pyval) (w : world)
    (r : other_run) : Prop :=
  getitem device "networkId" = Ok (PStr (or_network_id r)) ∧
  getitem device "serial" = Ok (PStr (or_serial r)) ∧
  getitem device "mac" = Ok (or_mac r) ∧
  getitem device "model" = Ok (or_model r) ∧
  get_network (PStr (or_network_id r)) networks = Ok (or_network r) ∧
  getitem (or_network r) "name" = Ok (PStr (or_network_name r)) ∧
  getitem (or_network r) "timeZone" = Ok (or_timeZone r) ∧
  jsonload (or_path r) (print ("Looking into network " ++ or_network_name r) w).2 =
    (Ok (or_device_info r), or_detail_world r) ∧
  device_name_of (or_device_info r) = Ok (PStr (or_device_name r)) ∧
  jsonload (or_path r ++ "/uplink")
    (print ("Found device " ++ or_device_name r) (or_detail_world r)).2 =
    (Ok (PList (or_uplink r)), or_uplink_world r) ∧
  Forall (fun uplink => is_dict uplink = true) (or_uplink r).

(** The row of the run when the first entry of the uplink list is [uplink]. *)
Definition or_row (r : other_run) (uplink : pyval) : list pyval :=
  other_row (or_timeZone r) (PStr (or_network_name r)) (PStr (or_device_name r))
    (PStr (or_serial r)) (or_mac r) (or_model r)
    (copied (entry_dict uplink) (fromkeys other_keys)).

(** ** Vocabulary of the further properties *)

(** Line 95, the body of the first [try]: the organization and its name. *)
Definition organization_name (ORG_ID : string) : prog pyval :=
  organization ← jsonload ("organizations/" ++ ORG_ID);
  lift (getitem organization "name").

Definition exit_message : string :=
  "Incorrect API key or org ID, as no valid data returned".

(** From [w] to [w'] at most [k] requests were made, none of the earlier
    ones forgotten, and at most [k] seconds slept. *)
Definition requests_within (k : nat) (w w' : world) : Prop :=
  (exists urls, gets w' = (urls ++ gets w)%list ∧ (length urls <= k)%nat) ∧
  (slept w <= slept w')%nat ∧ (slept w' <= slept w + k)%nat.

Definition other_file (n : fileno) : fileno :=
  match n with
  | File1 => File2
  | File2 => File1
  end.

(** From [w] to [w'] report [n] kept its name and its rows and gained the
    rows [rows], each with one value per field name, and the other report
    stayed as it was. *)
Definition rows_added (n : fileno) (fieldnames : list string) (w w' : world)
    (rows : list (list pyval)) : Prop :=
  file_name (get_file n w') = file_name (get_file n w) ∧
  file_rows (get_file n w') = (file_rows (get_file n w) ++ rows)%list ∧
  Forall (fun row => length row = length fieldnames) rows ∧
  get_file (other_file n) w' = get_file (other_file n) w.

(** The value the last entry of block [b] that reports [key] gives it, if
    any entry of the list does. *)
Fixpoint last_reported (b : block) (key : string) (l : list pyval) : option pyval :=
  match l with
  | [] => None
  | uplink :: l' =>
      match last_reported b key l' with
      | Some v => Some v
      | None =>
          if decide (entry_block uplink = Some b) then assoc key (entry_dict uplink)
          else None
      end
  end.

(** What a column of the report holds for a field of the API: the [str] of
    the value reported, [None] when none is. *)
Definition column_of (reported : option pyval) : pyval :=
  match reported with
  | Some v => PStr (py_str v)
  | None => PNone
  end.

(** The columns of the appliances report that come from the uplink list,
    each with the block and the field of the API it shows (lines 153 to
    170). *)
Definition appliance_columns : list (string * (block * string)) :=
  [("WAN1 Status", (BlockWAN1, "status")); ("WAN1 IP", (BlockWAN1, "ip"));
   ("WAN1 Gateway", (BlockWAN1, "gateway")); ("WAN1 Public IP", (BlockWAN1, "publicIp"));
   ("WAN1 DNS", (BlockWAN1, "dns")); ("WAN1 Static", (BlockWAN1, "usingStaticIp"));
   ("WAN2 Status", (BlockWAN2, "status")); ("WAN2 IP", (BlockWAN2, "ip"));
   ("WAN2 Gateway", (BlockWAN2, "gateway")); ("WAN2 Public IP", (BlockWAN2, "publicIp"));
   ("WAN2 DNS", (BlockWAN2, "dns")); ("WAN2 Static", (BlockWAN2, "usingStaticIp"));
   ("Cellular Status", (BlockCellular, "status")); ("Cellular IP", (BlockCellular, "ip"));
   ("Cellular Provider", (BlockCellular, "provider"));
   ("Cellular Public IP", (BlockCellular, "publicIp"));
   ("Cellular Model", (BlockCellular, "model"));
   ("Cellular Connection", (BlockCellular, "connectionType"))].

(** The same for the other devices report (lines 215 to 221). *)
Definition other_columns : list (string * string) :=
  [("Status", "status"); ("IP", "ip"); ("Gateway", "gateway"); ("Public IP", "publicIp");
   ("DNS", "dns"); ("VLAN", "vlan"); ("Static", "usingStaticIp")].

End Uplink.

(** ** A concrete runtime, to run the script on examples *)

Module Demo.

(** Floats with an integral value. *)
Definition floats : Floats :=
  {| float := Z;
     float_eqb := Z.eqb;
     float_eq_int := Z.eqb;
     float_str := fun z => pretty z ++ ".0" |}.

Definition decode (table : list (string * @pyval floats)) (text : string)
  : option (@pyval floats) :=
  if String.eqb text "" then None else @assoc floats text table.

(** The endpoint answers from a script of outcomes, whatever the URL, and
    with empty bodies once the script is over; the decoder knows the bodies
    of [table] and rejects any other text. *)
Definition runtime (table : list (string * @pyval floats)) : @Runtime floats :=
  {| container_repr := fun _ => "<container>";
     transport := list response;
     session_get := fun _ t =>
       match t with
       | [] => (Body "", [])
       | r :: t' => (r, t')
       end;
     json_loads := decode table;
     json_loads_empty := eq_refl;
     today := "2022-09-30" |}.

Definition world0 (table : list (string * @pyval floats)) (script : list response)
  : @world floats (runtime table) :=
  @mkWorld floats (runtime table) script [] 0 [] (mkFile "" []) (mkFile "" []).

#[local] Existing Instance floats.

(** An organization with one network and three devices in its inventory: a
    gateway, an access point, and a switch that is in no network. *)
Definition organization : pyval :=
  PDict [("id", PStr "1"); ("name", PStr "Acme")].

Definition hq : pyval :=
  PDict [("id", PStr "N1"); ("name", PStr "HQ"); ("timeZone", PStr "UTC")].

Definition networks : pyval := PList [hq].

Definition mx64 : pyval :=
  PDict [("serial", PStr "Q2XX-0001"); ("mac", PStr "aa:bb"); ("model", PStr "MX64");
         ("networkId", PStr "N1")].

Definition mr33 : pyval :=
  PDict [("serial", PStr "Q2YY-0002"); ("mac", PStr "cc:dd"); ("model", PStr "MR33");
         ("networkId", PStr "N1")].

Definition ms120 : pyval :=
  PDict [("serial", PStr "Q2ZZ-0003"); ("mac", PStr "ee:ff"); ("model", PStr "MS120");
         ("networkId", PNone)].

Definition inventory : pyval := PList [mx64; mr33; ms120].

Definition mx64_detail : pyval :=
  PDict [("name", PStr "gateway"); ("serial", PStr "Q2XX-0001");
         ("firmware", PStr "wired-15-44"); ("lat", PFloat 37%Z); ("lng", PFloat (-122)%Z)].

Definition mx64_performance : pyval := PDict [("perfScore", PInt 42)].

Definition wan1 : pyval :=
  PDict [("interface", PStr "WAN 1"); ("status", PStr "Active");
         ("ip", PStr "10.123.096.228"); ("usingStaticIp", PBool false)].

Definition mx64_uplink : pyval := PList [wan1].

(** The access point has no name. *)
Definition mr33_detail : pyval :=
  PDict [("serial", PStr "Q2YY-0002"); ("firmware", PStr "wireless-27")].

Definition mr33_wired : pyval :=
  PDict [("interface", PStr "WAN 1"); ("status", PStr "Active"); ("ip", PStr "10.0.0.2");
         ("vlan", PInt 7)].

Definition mr33_second : pyval :=
  PDict [("interface", PStr "WAN 1"); ("status", PStr "Failed"); ("ip", PStr "10.0.0.3")].

Definition mr33_uplink : pyval := PList [mr33_wired; mr33_second].

(** The bodies are named; the decoder maps a name to the value its JSON
    text decodes to.  The body 'error' decodes to an object without a
    'perfScore', the body 'none' to an empty list. *)
Definition table : list (string * pyval) :=
  [("organization", organization); ("networks", networks); ("inventory", inventory);
   ("mx64_detail", mx64_detail); ("mx64_performance", mx64_performance);
   ("mx64_uplink", mx64_uplink); ("mr33_detail", mr33_detail);
   ("mr33_uplink", mr33_uplink); ("error", PDict [("errors", PList [])]);
   ("none", PList [])].

Definition rt : @Runtime floats := runtime table.

(** A run in which every request is answered at once. *)
Definition script : list response :=
  [Body "organization"; Body "networks"; Body "inventory"; Body "mx64_detail";
   Body "mx64_performance"; Body "mx64_uplink"; Body "mr33_detail"; Body "mr33_uplink"].

Definition start : @world floats (runtime table) := world0 table script.

(** The body of the appliances loop for the gateway, from a world whose
    endpoint answers [answers]. *)
Definition mx64_world (answers : list response) : @world floats (runtime table) :=
  world0 table answers.

Definition mx64_run (answers : list response) (perfscore : pyval)
  : @appliance_run floats (runtime table) :=
  let w1 := (print "Looking into network HQ" (mx64_world answers)).2 in
  let w2 := (jsonload "networks/N1/devices/Q2XX-0001" w1).2 in
  let w3 := (fetch_perfscore mx64 w2).2 in
  let w4 := (print "Found appliance gateway" w3).2 in
  let w5 := (jsonload "networks/N1/devices/Q2XX-0001/uplink" w4).2 in
  {| ar_network_id := "N1";
     ar_serial := "Q2XX-0001";
     ar_mac := PStr "aa:bb";
     ar_model := PStr "MX64";
     ar_network := hq;
     ar_network_name := "HQ";
     ar_timeZone := PStr "UTC";
     ar_device_info := mx64_detail;
     ar_device_name := "gateway";
     ar_firmware := PStr "wired-15-44";
     ar_lat := PFloat 37%Z;
     ar_lng := PFloat (-122)%Z;
     ar_perfscore := perfscore;
     ar_uplinks := [wan1];
     ar_detail_world := w2;
     ar_score_world := w3;
     ar_uplink_world := w5 |}.

Definition mx64_answers : list response :=
  [Body "mx64_detail"; Body "mx64_performance"; Body "mx64_uplink"].

(** The performance request is answered with an object that has no
    'perfScore'. *)
Definition mx64_answers_no_score : list response :=
  [Body "mx64_detail"; Body "error"; Body "mx64_uplink"].

(** The body of the other loop for the access point. *)
Definition mr33_answers : list response := [Body "mr33_detail"; Body "mr33_uplink"].

Definition mr33_run : @other_run floats (runtime table) :=
  let w0 := world0 table mr33_answers in
  let w1 := (print "Looking into network HQ" w0).2 in
  let w2 := (jsonload "networks/N1/devices/Q2YY-0002" w1).2 in
  let w3 := (print "Found device Q2YY-0002" w2).2 in
  let w4 := (jsonload "networks/N1/devices/Q2YY-0002/uplink" w3).2 in
  {| or_network_id := "N1";
     or_serial := "Q2YY-0002";
     or_mac := PStr "cc:dd";
     or_model := PStr "MR33";
     or_network := hq;
     or_network_name := "HQ";
     or_timeZone := PStr "UTC";
     or_device_info := mr33_detail;
     or_device_name := "Q2YY-0002";
     or_uplink := [mr33_wired; mr33_second];
     or_detail_world := w2;
     or_uplink_world := w4 |}.

(** The endpoint fails twice before it answers. *)
Definition flaky : @world floats (runtime table) :=
  world0 table [TransientError; TransientError; Body "organization"].

(** The endpoint answers with an empty body, fails once, and then answers
    with a page that is no JSON document. *)
Definition broken : @world floats (runtime table) :=
  world0 table [Body ""; TransientError; Body "<html>"].

(** Two network records with the same id. *)
Definition hq_again : pyval :=
  PDict [("id", PStr "N1"); ("name", PStr "Branch"); ("timeZone", PStr "CET")].

Definition networks_twice : pyval := PList [hq; hq_again].

(** Two entries of an uplink list with the same label. *)
Definition wan1_later : pyval :=
  PDict [("interface", PStr "WAN 1"); ("status", PStr "Failed"); ("gateway", PStr "10.0.0.1")].

Definition lte : pyval :=
  PDict [("interface", PStr "LTE"); ("status", PStr "Ready")].

(** The endpoint fails once and then raises an exception [jsonload] does
    not catch. *)
Definition refused : @world floats (runtime table) :=
  world0 table [TransientError; OtherError].

(** The endpoint never delivers a body. *)
Definition silent : @world floats (runtime table) :=
  world0 table [Body ""; TransientError; Body ""].

(** The organization request is answered with an error object. *)
Definition unauthorized : @world floats (runtime table) :=
  world0 table [Body "error"].

(** A detail record whose name is null. *)
Definition unnamed_detail : pyval :=
  PDict [("name", PNone); ("serial", PStr "Q2XX-0001"); ("firmware", PStr "wired-15-44")].

Definition table_unnamed : list (string * pyval) :=
  ("unnamed_detail", unnamed_detail) :: table.

Definition unnamed : @world floats (runtime table_unnamed) :=
  world0 table_unnamed [Body "unnamed_detail"; Body "mx64_performance"; Body "mx64_uplink"].


End Demo.

(** * Properties *)

Section Properties.

Context `{RT : Runtime}.

Local Open Scope nat_scope.

(** ** The fetcher *)

Lemma nonempty_length (text : string) :
  text ≠ "" -> (0 <? String.length text)%nat = true.
Proof.
  destruct text as [|c text']; [congruence | reflexivity].
Qed.

Lemma retriable_body (text : string) :
  retriable (Body text) = true -> text = "".
Proof.
  destruct text as [|c text']; [reflexivity | discriminate].
Qed.

(** One round of the loop on a retriable outcome: one request, one second
    of sleep when the outcome was an exception, and [jsondata] still
    empty. *)
Lemma get_text_retriable (url : string) (r : response) (w : world) :
  (session_get url (net w)).1 = r ->
  retriable r = true ->
  get_text url "" w =
    (Ok "", after_requests url 1 (if is_transient r then 1 else 0)
              (session_get url (net w)).2 w).
Proof.
  intros Hr Hret. unfold get_text, after_requests.
  destruct (session_get url (net w)) as [r' t] eqn:E. simpl in Hr. subst r'.
  destruct r as [text | |]; simpl in *.
  - apply retriable_body in Hret as ->. do 2 f_equal. lia.
  - reflexivity.
  - discriminate.
Qed.

Lemma after_requests_compose (url : string) (n k m j : nat) (t t' : transport) (w : world) :
  after_requests url n k t' (after_requests url m j t w) =
  after_requests url (n + m) (j + k) t' w.
Proof.
  unfold after_requests. simpl. f_equal.
  - rewrite replicate_add. by rewrite app_assoc.
  - lia.
Qed.

(** While the outcomes are retriable and retries are left, the loop keeps
    asking; it stops at the first body that is not empty. *)
Lemma jsonload_while_serves (path : string) (rs : list response) (text : string) :
  Forall (fun r => retriable r = true) rs ->
  text ≠ "" ->
  forall (retries : nat) (w : world),
    length rs < retries ->
    serves (url_of path) (rs ++ [Body text]) (net w) ->
    exists t, jsonload_while path "" retries w =
      (Ok text, after_requests (url_of path) (S (length rs)) (transient_count rs) t w).
Proof.
  intros Hrs Htext. induction Hrs as [|r rs Hr _ IH]; intros retries w Hlen Hserves.
  - destruct retries as [|k]; [simpl in Hlen; lia|].
    simpl in Hserves. destruct Hserves as [Hget _].
    exists (session_get (url_of path) (net w)).2.
    cbn [jsonload_while String.length Nat.ltb Nat.leb negb].
    unfold mbind, prog_bind, get_text, after_requests.
    destruct (session_get (url_of path) (net w)) as [r t]. simpl in Hget. subst r.
    simpl. destruct k; simpl; [|rewrite nonempty_length by done; simpl];
      unfold mret, prog_ret, transient_count; simpl; do 2 f_equal; lia.
  - destruct retries as [|k]; [simpl in Hlen; lia|].
    simpl in Hserves. destruct Hserves as [Hget Hserves].
    cbn [jsonload_while String.length Nat.ltb Nat.leb negb].
    unfold mbind, prog_bind. rewrite (get_text_retriable _ r) by done.
    set (w1 := after_requests _ _ _ _ w).
    destruct (IH k w1) as [t Ht].
    + simpl in Hlen. lia.
    + exact Hserves.
    + exists t. rewrite Ht. unfold w1. rewrite after_requests_compose. do 2 f_equal.
      * simpl. lia.
      * unfold transient_count. simpl. destruct (is_transient r); simpl; lia.
Qed.

(** When every outcome is retriable the loop uses up its retries and leaves
    [jsondata] empty. *)
Lemma jsonload_while_exhausted (path : string) (rs : list response) :
  Forall (fun r => retriable r = true) rs ->
  forall (w : world),
    serves (url_of path) rs (net w) ->
    exists t, jsonload_while path "" (length rs) w =
      (Ok "", after_requests (url_of path) (length rs) (transient_count rs) t w).
Proof.
  intros Hrs. induction Hrs as [|r rs Hr _ IH]; intros w Hserves.
  - exists (net w). simpl. unfold mret, prog_ret, after_requests. simpl.
    destruct w; unfold transient_count; simpl. do 2 f_equal. lia.
  - simpl in Hserves. destruct Hserves as [Hget Hserves].
    cbn [length jsonload_while String.length Nat.ltb Nat.leb negb].
    unfold mbind, prog_bind. rewrite (get_text_retriable _ r) by done.
    set (w1 := after_requests _ _ _ _ w).
    destruct (IH w1 Hserves) as [t Ht].
    exists t. rewrite Ht. unfold w1. rewrite after_requests_compose. do 2 f_equal.
    + simpl. lia.
    + unfold transient_count. simpl. destruct (is_transient r); simpl; lia.
Qed.

Lemma serves_app_l (url : string) (rs rs' : list response) :
  forall t : transport, serves url (rs ++ rs') t -> serves url rs t.
Proof.
  induction rs as [|r rs IH]; intros t Hs; [exact I|].
  destruct Hs as [Hr Hs]. split; [exact Hr | by apply IH].
Qed.

Lemma retriable_transient (n : nat) :
  Forall (fun r => retriable r = true) (replicate n TransientError).
Proof.
  apply Forall_forall. intros r Hr. by apply elem_of_replicate in Hr as [-> _].
Qed.

Lemma transient_count_replicate (n : nat) :
  transient_count (replicate n TransientError) = n.
Proof.
  unfold transient_count. induction n as [|n IH]; simpl; [reflexivity | by rewrite IH].
Qed.

(** C1 (retry bound).  When the transport raises a transient error on the
    first [N] requests and then returns a body that is not empty and decodes
    to [v]: [jsonload] returns [v] exactly when [N < 3]; from [N = 3] on it
    stops after three requests and the decoding of the empty text raises;
    and it has slept [min N 3] seconds, having made [min (N + 1) 3]
    requests. *)
Theorem jsonload_retry_bound (path body : string) (v : pyval) (N : nat) (w : world) :
  body ≠ "" ->
  json_loads body = Some v ->
  serves (url_of path) (replicate N TransientError ++ [Body body]) (net w) ->
  (is_ok (jsonload path w).1 = true <-> N < 3) ∧
  (N < 3 -> (jsonload path w).1 = Ok v) ∧
  (3 ≤ N -> (jsonload path w).1 = Raise JSONDecodeError) ∧
  gets (jsonload path w).2 = (replicate (S N `min` 3) (url_of path) ++ gets w)%list ∧
  slept (jsonload path w).2 = slept w + N `min` 3.
Proof.
  intros Hbody Hv Hserves.
  destruct (decide (N < 3)) as [Hlt | Hge].
  - destruct (jsonload_while_serves path _ body (retriable_transient N) Hbody 3 w)
      as [t Ht]; [by rewrite length_replicate | exact Hserves |].
    rewrite length_replicate, transient_count_replicate in Ht.
    unfold jsonload, mbind, prog_bind. rewrite Ht. unfold loads. rewrite Hv.
    replace (S N `min` 3) with (S N) by lia. replace (N `min` 3) with N by lia.
    simpl. repeat split; try done; lia.
  - assert (HN : N = 3 + (N - 3)) by lia.
    rewrite HN, replicate_add, <- app_assoc in Hserves.
    apply serves_app_l in Hserves.
    destruct (jsonload_while_exhausted path _ (retriable_transient 3) w Hserves)
      as [t Ht].
    rewrite length_replicate, transient_count_replicate in Ht.
    unfold jsonload, mbind, prog_bind. rewrite Ht. unfold loads.
    rewrite json_loads_empty.
    replace (S N `min` 3) with 3 by lia. replace (N `min` 3) with 3 by lia.
    simpl. repeat split; try done; lia.
Qed.

(** C9.  The loop asks again only after an exception it catches or an empty
    body: when fewer than three such outcomes are followed by a body that is
    not empty, that body ends the loop, whatever it holds; if it is no JSON
    document the call raises the parse failure with no further request; and
    the seconds slept are the number of exceptions among the outcomes, an
    empty body costing none. *)
Theorem jsonload_stops_at_first_body (path : string) (rs : list response) (text : string)
    (w : world) :
  Forall (fun r => retriable r = true) rs ->
  length rs < 3 ->
  text ≠ "" ->
  serves (url_of path) (rs ++ [Body text]) (net w) ->
  (jsonload path w).1 =
    match json_loads text with
    | Some v => Ok v
    | None => Raise JSONDecodeError
    end ∧
  gets (jsonload path w).2 = (replicate (S (length rs)) (url_of path) ++ gets w)%list ∧
  slept (jsonload path w).2 = slept w + transient_count rs.
Proof.
  intros Hrs Hlen Htext Hserves.
  destruct (jsonload_while_serves path rs text Hrs Htext 3 w Hlen Hserves) as [t Ht].
  unfold jsonload, mbind, prog_bind. rewrite Ht. unfold loads.
  destruct (json_loads text); done.
Qed.

(** ** Comparison of values *)

Lemma py_eq_str_l (s : string) (x : pyval) :
  py_eq (PStr s) x = true -> x = PStr s.
Proof.
  destruct x; simpl; try discriminate.
  intros Heq. apply String.eqb_eq in Heq. by subst.
Qed.

Lemma py_eq_str_r (x : pyval) (s : string) :
  py_eq x (PStr s) = true -> x = PStr s.
Proof.
  destruct x; simpl; try discriminate.
  intros Heq. apply String.eqb_eq in Heq. by subst.
Qed.

Lemma py_eq_str_refl (s : string) : py_eq (PStr s) (PStr s) = true.
Proof. simpl. apply String.eqb_refl. Qed.

Lemma py_eq_None_r (x : pyval) : py_eq x PNone = is_None x.
Proof. by destruct x. Qed.

(** Equal dicts bind the same keys to equal values. *)
Lemma py_eq_dict_lookup (d e : list (string * pyval)) (k : string) (v : pyval) :
  py_eq (PDict d) (PDict e) = true ->
  assoc k d = Some v ->
  exists w, assoc k e = Some w ∧ py_eq v w = true.
Proof.
  simpl. intros Heq. apply andb_true_iff in Heq as [_ Hsub]. revert Hsub.
  induction d as [|[k' v'] d IH]; simpl; [discriminate|].
  intros Hsub Hk. apply andb_true_iff in Hsub as [Hhd Htl].
  destruct (String.eqb k k') eqn:Ek.
  - apply String.eqb_eq in Ek as <-. injection Hk as <-.
    destruct (assoc k e) as [w|]; [|discriminate]. by exists w.
  - by apply IH.
Qed.

(** ** The network resolver *)

Lemma filter_res_total {A : Type} (p : A -> res bool) (q : A -> bool) (l : list A) :
  Forall (fun x => p x = Ok (q x)) l ->
  filter_res p l = Ok (List.filter q l).
Proof.
  induction 1 as [|x l Hx _ IH]; simpl; [reflexivity|].
  rewrite Hx. simpl. rewrite IH. simpl. by destruct (q x).
Qed.

(** Over records that all carry an id, the resolver returns the first record
    whose id matches, and raises IndexError when there is none. *)
Lemma get_network_first_match (network_id : pyval) (l : list pyval) :
  Forall (fun element => is_ok (getitem element "id") = true) l ->
  get_network network_id (PList l) =
    match List.filter (id_matches network_id) l with
    | [] => Raise IndexError
    | network :: _ => Ok network
    end.
Proof.
  intros Hl. unfold get_network. simpl.
  rewrite (filter_res_total _ (id_matches network_id)).
  - simpl. by destruct (List.filter _ l).
  - eapply Forall_impl; [exact Hl|]. intros element Hid. unfold id_matches.
    simpl in Hid. by destruct (getitem element "id").
Qed.

(** ** The inventory classifier *)

Lemma existsb_str_eq (p : string) (l : list string) :
  existsb (fun q => py_eq (PStr q) (PStr p)) l = bool_decide (p ∈ l).
Proof.
  induction l as [|q l IH]; [reflexivity|].
  cbn [existsb]. rewrite IH. simpl. destruct (String.eqb q p) eqn:E.
  - apply String.eqb_eq in E as ->. symmetry. apply bool_decide_eq_true. left.
  - apply String.eqb_neq in E. simpl.
    apply bool_decide_ext. rewrite elem_of_cons. intuition congruence.
Qed.

Lemma in_prefixes_str (p : string) :
  in_prefixes (PStr p) = bool_decide (p ∈ appliance_prefixes).
Proof. apply existsb_str_eq. Qed.

Lemma is_appliance_spec (device : pyval) :
  inventory_device device = true ->
  is_appliance device = Ok (spec_appliance device).
Proof.
  unfold inventory_device, is_appliance, spec_appliance, spec_assigned, spec_prefix.
  destruct (getitem device "model") as [[| | | |model| |]|]; try discriminate.
  destruct (getitem device "networkId") as [network_id|]; [|discriminate].
  intros _. simpl. rewrite in_prefixes_str.
  destruct (bool_decide _); simpl; [|by rewrite andb_false_r].
  by rewrite andb_true_r.
Qed.

(** A record equal to an appliance record is an appliance record. *)
Lemma spec_appliance_py_eq (a d : pyval) :
  inventory_device a = true ->
  inventory_device d = true ->
  py_eq a d = true ->
  spec_appliance a = true ->
  spec_appliance d = true.
Proof.
  unfold inventory_device, spec_appliance, spec_assigned, spec_prefix, getitem.
  destruct a as [| | | | | |da]; try discriminate.
  destruct d as [| | | | | |dd]; try discriminate.
  destruct (assoc "model" da) as [[| | | |ma| |]|] eqn:Ema; try discriminate.
  destruct (assoc "networkId" da) as [na|] eqn:Ena; [|discriminate].
  destruct (assoc "model" dd) as [[| | | |md| |]|] eqn:Emd; try discriminate.
  destruct (assoc "networkId" dd) as [nd|] eqn:End'; [|discriminate].
  intros _ _ Heq Ha. apply andb_true_iff in Ha as [Hna Hpa].
  destruct (py_eq_dict_lookup _ _ _ _ Heq Ema) as (w & Hw & Hmw).
  destruct (py_eq_dict_lookup _ _ _ _ Heq Ena) as (n & Hn & Hnn).
  rewrite Emd in Hw. injection Hw as <-. rewrite End' in Hn. injection Hn as <-.
  apply py_eq_str_l in Hmw. injection Hmw as ->.
  apply andb_true_iff. split; [|exact Hpa].
  destruct nd; try reflexivity. rewrite py_eq_None_r in Hnn.
  by rewrite Hnn in Hna.
Qed.

Lemma elem_of_objects (l : list pyval) (x : nat * pyval) :
  x ∈ objects l <-> l !! x.1 = Some x.2.
Proof.
  unfold objects. rewrite elem_of_lookup_imap. split.
  - intros (i & y & -> & Hy). exact Hy.
  - intros Hx. exists x.1, x.2. by destruct x.
Qed.

Lemma filter_imap_snd (q : pyval -> bool) (l : list pyval) :
  forall f : nat -> pyval -> nat * pyval,
    (forall i x, (f i x).2 = x) ->
    (List.filter (fun x : nat * pyval => q x.2) (imap f l)).*2 = List.filter q l.
Proof.
  induction l as [|x l IH]; intros f Hf; [reflexivity|].
  simpl. rewrite Hf. destruct (q x); simpl; rewrite ?Hf, IH; try done.
  all: intros i y; apply Hf.
Qed.

Lemma filter_objects (q : pyval -> bool) (l : list pyval) :
  (List.filter (fun x : nat * pyval => q x.2) (objects l)).*2 = List.filter q l.
Proof. by apply filter_imap_snd. Qed.

(** Membership in the list of appliances, as the second comprehension tests
    it, is being an appliance. *)
Lemma py_in_appliances (devs : list pyval) (x : nat * pyval) :
  Forall (fun d => inventory_device d = true) devs ->
  x ∈ objects devs ->
  py_in x (List.filter (fun y : nat * pyval => spec_appliance y.2) (objects devs)) =
    spec_appliance x.2.
Proof.
  intros Hdevs Hx. rewrite Forall_forall in Hdevs.
  destruct (spec_appliance x.2) eqn:Hspec.
  - apply existsb_exists. exists x. split.
    + apply filter_In. split; [by apply list_elem_of_In | exact Hspec].
    + by rewrite Nat.eqb_refl.
  - apply not_true_is_false. intros Hin. apply existsb_exists in Hin as (y & Hy & Hsame).
    apply filter_In in Hy as [Hy Hyspec]. apply list_elem_of_In in Hy.
    apply elem_of_objects in Hx, Hy.
    apply orb_true_iff in Hsame as [Hpos | Heq].
    + apply Nat.eqb_eq in Hpos. rewrite Hpos in Hy. congruence.
    + assert (spec_appliance x.2 = true); [|congruence].
      apply (spec_appliance_py_eq y.2); try done.
      * apply Hdevs. by eapply list_elem_of_lookup_2.
      * apply Hdevs. by eapply list_elem_of_lookup_2.
Qed.

Lemma is_other_spec (devs : list pyval) (x : nat * pyval) :
  Forall (fun d => inventory_device d = true) devs ->
  x ∈ objects devs ->
  is_other (List.filter (fun y : nat * pyval => spec_appliance y.2) (objects devs)) x =
    Ok (spec_other x.2).
Proof.
  intros Hdevs Hx. unfold is_other. rewrite py_in_appliances by done.
  assert (Hwf : inventory_device x.2 = true).
  { rewrite Forall_forall in Hdevs. apply Hdevs. apply elem_of_objects in Hx.
    by eapply list_elem_of_lookup_2. }
  revert Hwf. unfold inventory_device, spec_other, spec_appliance, spec_assigned.
  destruct (getitem x.2 "model") as [[| | | |model| |]|]; try discriminate.
  destruct (getitem x.2 "networkId") as [network_id|]; [|discriminate].
  intros _. simpl. by destruct (negb (is_None network_id)), (spec_prefix x.2).
Qed.

Lemma classify_spec (devs : list pyval) :
  Forall (fun d => inventory_device d = true) devs ->
  classify (PList devs) =
    Ok (List.filter spec_appliance devs, List.filter spec_other devs).
Proof.
  intros Hdevs. unfold classify. simpl.
  rewrite (filter_res_total _ (fun y : nat * pyval => spec_appliance y.2)).
  - simpl. rewrite (filter_res_total _ (fun y : nat * pyval => spec_other y.2)).
    + simpl. by rewrite !filter_objects.
    + apply Forall_forall. intros x Hx. by apply is_other_spec.
  - apply Forall_forall. intros x Hx. apply is_appliance_spec.
    rewrite Forall_forall in Hdevs. apply Hdevs. apply elem_of_objects in Hx.
    by eapply list_elem_of_lookup_2.
Qed.

(** C4 (classification).  Over an inventory of well-formed records the two
    comprehensions compute the partition of the specification, in inventory
    order: a device with a network id lands in [appliances] exactly when the
    first two characters of its model code are one of 'MX', 'Z1', 'Z3', 'vM',
    in [devices] exactly when they are not, hence in one of the two and not
    in both; a device with a null network id lands in neither. *)
Theorem classify_partition (devs : list pyval) :
  Forall (fun d => inventory_device d = true) devs ->
  exists appliances devices : list pyval,
    classify (PList devs) = Ok (appliances, devices) ∧
    appliances = List.filter spec_appliance devs ∧
    devices = List.filter spec_other devs ∧
    (forall d, d ∈ devs -> spec_assigned d = true ->
       (d ∈ appliances <-> spec_prefix d = true) ∧
       (d ∈ devices <-> spec_prefix d = false) ∧
       (d ∈ appliances ∨ d ∈ devices) ∧
       ¬ (d ∈ appliances ∧ d ∈ devices)) ∧
    (forall d, d ∈ devs -> spec_assigned d = false ->
       (d ∉ appliances) ∧ (d ∉ devices)).
Proof.
  intros Hdevs. eexists _, _. split; [by apply classify_spec|].
  do 2 (split; [reflexivity|]).
  assert (Hmem : forall (q : pyval -> bool) d,
             d ∈ List.filter q devs <-> d ∈ devs ∧ q d = true).
  { intros q d. by rewrite !list_elem_of_In, filter_In. }
  split; intros d Hd Hassigned; rewrite !Hmem;
    unfold spec_appliance, spec_other; rewrite Hassigned; simpl.
  - destruct (spec_prefix d); simpl; intuition congruence.
  - intuition congruence.
Qed.

(** ** The uplink normalizer *)

Lemma fold_res_app {A B : Type} (f : B -> A -> res B) (l1 l2 : list A) :
  forall b : B,
    fold_res f b (l1 ++ l2) = b' ← fold_res f b l1; fold_res f b' l2.
Proof.
  induction l1 as [|x l1 IH]; intros b; [reflexivity|].
  simpl. destruct (f b x) as [b'|e]; simpl; [apply IH | reflexivity].
Qed.

Lemma fold_res_total {A B : Type} (f : B -> A -> res B) (g : B -> A -> B) (l : list A) :
  Forall (fun x => forall b, f b x = Ok (g b x)) l ->
  forall b : B, fold_res f b l = Ok (foldl g b l).
Proof.
  induction 1 as [|x l Hx _ IH]; intros b; [reflexivity|].
  simpl. rewrite Hx. simpl. apply IH.
Qed.

Lemma assoc_elem_of (k : string) (d : list (string * pyval)) :
  k ∈ d.*1 -> is_Some (assoc k d).
Proof.
  induction d as [|[k' v] d IH]; simpl; [by intros ?%elem_of_nil|].
  intros Hk. destruct (String.eqb k k') eqn:E; [by eexists|].
  apply String.eqb_neq in E. apply elem_of_cons in Hk as [?|?]; [done | by apply IH].
Qed.

Lemma assoc_None (k : string) (d : list (string * pyval)) :
  assoc k d = None -> k ∉ d.*1.
Proof.
  intros Hnone Hk. apply assoc_elem_of in Hk as [v Hv]. congruence.
Qed.

(** The inner loop over the keys of an entry never raises. *)
Lemma copy_fields_dict (d : list (string * pyval)) (m : gmap string pyval) :
  copy_fields (PDict d) m = Ok (copied d m).
Proof.
  unfold copy_fields, copied. simpl.
  apply (fold_res_total _ (fun m key => match assoc key d with
                                        | Some v => <[key := PStr (py_str v)]> m
                                        | None => m
                                        end)).
  apply Forall_forall. intros k Hk m'. simpl.
  by destruct (assoc_elem_of k d Hk) as [v ->].
Qed.

Lemma lookup_copied_keys (d : list (string * pyval)) (ks : list string) (k : string) :
  forall m : gmap string pyval,
    foldl (fun m key =>
             match assoc key d with
             | Some v => <[key := PStr (py_str v)]> m
             | None => m
             end) m ks !! k =
    match assoc k d with
    | Some v => if bool_decide (k ∈ ks) then Some (PStr (py_str v)) else m !! k
    | None => m !! k
    end.
Proof.
  induction ks as [|k0 ks IH]; intros m; simpl.
  - by destruct (assoc k d).
  - rewrite IH. destruct (assoc k d) as [v|] eqn:Ek.
    + destruct (decide (k = k0)) as [->|Hne].
      * rewrite Ek, lookup_insert_eq, (bool_decide_eq_true_2 (k0 ∈ k0 :: ks)) by left.
        by destruct (bool_decide _).
      * rewrite (bool_decide_ext (k ∈ k0 :: ks) (k ∈ ks))
          by (rewrite elem_of_cons; intuition congruence).
        destruct (bool_decide _); [done|].
        destruct (assoc k0 d); [by rewrite lookup_insert_ne | done].
    + destruct (assoc k0 d) eqn:Ek0; [|done].
      rewrite lookup_insert_ne; [done | congruence].
Qed.

(** A copied bucket binds every key of the entry to the [str] of the entry's
    value, and keeps its other bindings. *)
Lemma lookup_copied (d : list (string * pyval)) (m : gmap string pyval) (k : string) :
  copied d m !! k =
    match assoc k d with
    | Some v => Some (PStr (py_str v))
    | None => m !! k
    end.
Proof.
  unfold copied. rewrite lookup_copied_keys.
  destruct (assoc k d) as [v|] eqn:Ek; [|done].
  rewrite bool_decide_eq_true_2; [done|].
  destruct (decide (k ∈ d.*1)) as [|Hn]; [done|].
  induction d as [|[k' v'] d IH]; [discriminate|].
  simpl in *. destruct (String.eqb k k') eqn:E.
  - apply String.eqb_eq in E as ->. left.
  - right. destruct (decide (k ∈ d.*1)); [done|]. by apply IH.
Qed.

Lemma uplink_entry_dict (uplink : pyval) :
  uplink_entry uplink = true -> uplink = PDict (entry_dict uplink).
Proof. by destruct uplink. Qed.

(** One round of the loop over the uplink list. *)
Lemma dispatch_absorb (info : uplinks_info) (uplink : pyval) :
  uplink_entry uplink = true ->
  dispatch info uplink = Ok (absorb info uplink).
Proof.
  intros Hentry. destruct uplink as [| | | | | |d]; try discriminate.
  unfold dispatch, absorb, entry_block, block_of, uplink_entry in *.
  destruct (getitem (PDict d) "interface") as [interface|]; [|discriminate].
  cbn [entry_dict mbind res_bind]. rewrite !copy_fields_dict. simpl.
  by repeat destruct (py_eq interface _).
Qed.

Lemma normalize_appliance_foldl (l : list pyval) :
  Forall (fun uplink => uplink_entry uplink = true) l ->
  normalize_appliance (PList l) = Ok (foldl absorb uplinks_info_init l).
Proof.
  intros Hl. unfold normalize_appliance. simpl.
  apply fold_res_total. eapply Forall_impl; [exact Hl|].
  intros uplink Hentry info. by apply dispatch_absorb.
Qed.

Lemma bucket_set_bucket (b b' : block) (m : gmap string pyval) (info : uplinks_info) :
  bucket b (set_bucket b' m info) = if decide (b = b') then m else bucket b info.
Proof. by destruct b, b', info. Qed.

Lemma absorb_hit (b : block) (info : uplinks_info) (uplink : pyval) :
  entry_block uplink = Some b ->
  bucket b (absorb info uplink) = copied (entry_dict uplink) (bucket b info).
Proof.
  intros Hb. unfold absorb. rewrite Hb, bucket_set_bucket. by case_decide.
Qed.

Lemma absorb_miss (b : block) (info : uplinks_info) (uplink : pyval) :
  entry_block uplink ≠ Some b ->
  bucket b (absorb info uplink) = bucket b info.
Proof.
  intros Hb. unfold absorb. destruct (entry_block uplink) as [b'|]; [|done].
  rewrite bucket_set_bucket. case_decide; congruence.
Qed.

(** Entries that do not bind [k] in block [b] leave [k] in that bucket as it
    was. *)
Lemma foldl_absorb_preserve (b : block) (k : string) (l : list pyval) :
  Forall (fun uplink => entry_block uplink = Some b ->
                        assoc k (entry_dict uplink) = None) l ->
  forall info : uplinks_info,
    bucket b (foldl absorb info l) !! k = bucket b info !! k.
Proof.
  induction 1 as [|uplink l Hu _ IH]; intros info; [reflexivity|].
  simpl. rewrite IH. destruct (decide (entry_block uplink = Some b)) as [Hb|Hb].
  - by rewrite absorb_hit, lookup_copied, Hu.
  - by rewrite absorb_miss.
Qed.

Lemma foldl_absorb_untouched (b : block) (l : list pyval) (info : uplinks_info) :
  Forall (fun uplink => entry_block uplink ≠ Some b) l ->
  bucket b (foldl absorb info l) = bucket b info.
Proof.
  intros Hl. apply map_eq. intros k. apply foldl_absorb_preserve.
  eapply Forall_impl; [exact Hl|]. by intros uplink Hne Hb.
Qed.

(** No key is ever removed from a bucket. *)
Lemma foldl_absorb_keeps (b : block) (k : string) (l : list pyval) :
  forall info : uplinks_info,
    is_Some (bucket b info !! k) ->
    is_Some (bucket b (foldl absorb info l) !! k).
Proof.
  induction l as [|uplink l IH]; intros info Hk; [exact Hk|].
  simpl. apply IH. destruct (decide (entry_block uplink = Some b)) as [Hb|Hb].
  - rewrite absorb_hit, lookup_copied by done. by destruct (assoc k _).
  - by rewrite absorb_miss.
Qed.

Lemma foldl_absorb_last (b : block) (k : string) (v : pyval) (pre post : list pyval)
    (uplink : pyval) (info : uplinks_info) :
  entry_block uplink = Some b ->
  assoc k (entry_dict uplink) = Some v ->
  Forall (fun later => entry_block later = Some b ->
                       assoc k (entry_dict later) = None) post ->
  bucket b (foldl absorb info (pre ++ uplink :: post)) !! k = Some (PStr (py_str v)).
Proof.
  intros Hb Hk Hpost. rewrite foldl_app. simpl.
  rewrite foldl_absorb_preserve by done.
  by rewrite absorb_hit, lookup_copied, Hk.
Qed.

Lemma py_eq_str_neq (x : pyval) (s : string) :
  x ≠ PStr s -> py_eq x (PStr s) = false.
Proof.
  intros Hne. apply not_true_is_false. intros Heq. by apply py_eq_str_r in Heq.
Qed.

(** C8.  An uplink entry whose interface label is none of 'WAN 1', 'WAN 2'
    and 'Cellular' is dropped: its round of the loop raises nothing and
    leaves the three buckets as they were, and the buckets computed from the
    whole list are those computed from the list without the entry. *)
Theorem unrecognized_interface_dropped (uplink label : pyval) :
  getitem uplink "interface" = Ok label ->
  label ≠ PStr "WAN 1" ->
  label ≠ PStr "WAN 2" ->
  label ≠ PStr "Cellular" ->
  (forall info, dispatch info uplink = Ok info) ∧
  (forall before after,
     normalize_appliance (PList (before ++ uplink :: after)) =
     normalize_appliance (PList (before ++ after))).
Proof.
  intros Hlabel H1 H2 H3.
  assert (Hdrop : forall info, dispatch info uplink = Ok info).
  { intros info. unfold dispatch. rewrite Hlabel. simpl.
    by rewrite !py_eq_str_neq. }
  split; [exact Hdrop|]. intros before after.
  unfold normalize_appliance. simpl. rewrite !fold_res_app.
  destruct (fold_res dispatch uplinks_info_init before) as [info|e]; [|reflexivity].
  simpl. by rewrite Hdrop.
Qed.

(** C10.  When several entries of the uplink list carry the same interface
    label, the last of them that reports a field decides it: that bucket
    binds the field to the [str] of the value in that last entry, whatever
    the earlier entries held, and no exception is raised. *)
Theorem later_entry_overwrites (b : block) (k : string) (v : pyval)
    (earlier later : list pyval) (uplink : pyval) :
  Forall (fun u => uplink_entry u = true) (earlier ++ uplink :: later) ->
  entry_block uplink = Some b ->
  assoc k (entry_dict uplink) = Some v ->
  Forall (fun u => entry_block u = Some b -> assoc k (entry_dict u) = None) later ->
  exists info,
    normalize_appliance (PList (earlier ++ uplink :: later)) = Ok info ∧
    bucket b info !! k = Some (PStr (py_str v)).
Proof.
  intros Hentries Hb Hk Hlater. eexists. split.
  - by apply normalize_appliance_foldl.
  - by apply foldl_absorb_last.
Qed.

(** ** Rows *)

(** The display of line 144 holds no key outside the field names, so the
    writer raises nothing and lays its values out in field order; the
    Performance column is [restval] when the key is absent. *)
Lemma dict_to_list_appliance (v1 v2 v3 v4 v5 v6 v7 v8 v9 v10 v11 v12 v13 v14 v15 v16 v17
    v18 v19 v20 v21 v22 v23 v24 v25 v26 perfscore : pyval) :
  dict_to_list fieldnames1
    (add_performance perfscore
       (list_to_map
          [("TimeZone", v1); ("Network", v2); ("Device", v3); ("Serial", v4);
           ("MAC", v5); ("Model", v6); ("firmware", v7); ("geolocation", v8);
           ("WAN1 Status", v9); ("WAN1 IP", v10); ("WAN1 Gateway", v11);
           ("WAN1 Public IP", v12); ("WAN1 DNS", v13); ("WAN1 Static", v14);
           ("WAN2 Status", v15); ("WAN2 IP", v16); ("WAN2 Gateway", v17);
           ("WAN2 Public IP", v18); ("WAN2 DNS", v19); ("WAN2 Static", v20);
           ("Cellular Status", v21); ("Cellular IP", v22); ("Cellular Provider", v23);
           ("Cellular Public IP", v24); ("Cellular Model", v25);
           ("Cellular Connection", v26)])) =
  Ok [v1; v2; v3; v4; v5; v6; v7; v8; v9; v10; v11; v12; v13; v14; v15; v16; v17; v18;
      v19; v20; v21; v22; v23; v24; v25; v26;
      if is_None perfscore then restval else perfscore].
Proof.
  unfold add_performance. rewrite py_eq_None_r.
  destruct (is_None perfscore); vm_compute; reflexivity.
Qed.

Lemma dict_to_list_other (v1 v2 v3 v4 v5 v6 v7 v8 v9 v10 v11 v12 v13 : pyval) :
  dict_to_list fieldnames2
    (list_to_map
       [("TimeZone", v1); ("Network", v2); ("Device", v3); ("Serial", v4); ("MAC", v5);
        ("Model", v6); ("Status", v7); ("IP", v8); ("Gateway", v9); ("Public IP", v10);
        ("DNS", v11); ("VLAN", v12); ("Static", v13)]) =
  Ok [v1; v2; v3; v4; v5; v6; v7; v8; v9; v10; v11; v12; v13].
Proof. vm_compute. reflexivity. Qed.

Lemma lookup_key_cell (m : gmap string pyval) (k : string) :
  is_Some (m !! k) -> lookup_key m k = Ok (cell m k).
Proof. intros [v Hv]. unfold lookup_key, cell. by rewrite Hv. Qed.

Ltac solve_elem_of := apply (bool_decide_unpack _); vm_compute; exact I.

(** Lines 130 to 132 bind every key of a block to [None]. *)
Lemma init_bucket (b : block) (k : string) :
  k ∈ block_keys b -> bucket b uplinks_info_init !! k = Some PNone.
Proof.
  intros Hk. destruct b; simpl in Hk; unfold wan_keys, cellular_keys in Hk;
    repeat (apply elem_of_cons in Hk as [->|Hk]; [vm_compute; reflexivity|]);
    by apply elem_of_nil in Hk.
Qed.

Lemma lookup_key_normalized (b : block) (k : string) (l : list pyval) :
  k ∈ block_keys b ->
  lookup_key (bucket b (foldl absorb uplinks_info_init l)) k =
    Ok (cell (bucket b (foldl absorb uplinks_info_init l)) k).
Proof.
  intros Hk. apply lookup_key_cell, foldl_absorb_keeps.
  rewrite init_bucket by done. by eexists.
Qed.

(** What is done with the uplink list of an appliance, when the records
    hold the fields the row takes from them: one row is written, with a
    value for every field name. *)
Lemma appliance_emit_row (network network_name device_name device_info perfscore
    appliance timeZone serial mac model firmware lat lng : pyval) (l : list pyval)
    (w : world) :
  getitem network "timeZone" = Ok timeZone ->
  getitem appliance "serial" = Ok serial ->
  getitem appliance "mac" = Ok mac ->
  getitem appliance "model" = Ok model ->
  getitem device_info "firmware" = Ok firmware ->
  getitem device_info "lat" = Ok lat ->
  getitem device_info "lng" = Ok lng ->
  Forall (fun uplink => uplink_entry uplink = true) l ->
  appliance_emit network network_name device_name device_info perfscore appliance
    (PList l) w =
  (Ok tt, with_row File1
            (appliance_row timeZone network_name device_name serial mac model firmware
               lat lng perfscore (foldl absorb uplinks_info_init l)) w).
Proof.
  intros Htz Hserial Hmac Hmodel Hfw Hlat Hlng Hl.
  unfold appliance_emit. unfold mbind at 1. unfold prog_bind, lift.
  rewrite normalize_appliance_foldl by done.
  set (info := foldl absorb uplinks_info_init l).
  unfold mbind at 1. unfold prog_bind, appliance_csvline.
  rewrite Htz, Hserial, Hmac, Hmodel, Hfw, Hlat, Hlng. cbn [mbind res_bind].
  change (WAN1 info) with (bucket BlockWAN1 info).
  change (WAN2 info) with (bucket BlockWAN2 info).
  change (Cellular info) with (bucket BlockCellular info).
  unfold info. rewrite !lookup_key_normalized by solve_elem_of.
  cbn [mbind res_bind mret res_ret]. unfold writerow, mbind, prog_bind, lift.
  rewrite dict_to_list_appliance. reflexivity.
Qed.

(** ** Running the program monad *)

Lemma bind_lift {A B : Type} (r : res A) (f : A -> prog B) (w : world) :
  (lift r ≫= f) w =
    match r with
    | Ok a => f a w
    | Raise e => (Raise e, w)
    end.
Proof. unfold mbind, prog_bind, lift. by destruct r. Qed.

Lemma bind_run {A B : Type} (m : prog A) (f : A -> prog B) (w w' : world) (a : A) :
  m w = (Ok a, w') -> (m ≫= f) w = f a w'.
Proof. intros Hm. unfold mbind, prog_bind. by rewrite Hm. Qed.

Lemma bind_print {B : Type} (line : string) (f : unit -> prog B) (w : world) :
  (print line ≫= f) w = f tt (print line w).2.
Proof. reflexivity. Qed.

(** The fetcher leaves the reports alone. *)
Lemma same_reports_refl (w : world) : same_reports w w.
Proof. by split. Qed.

Lemma same_reports_trans (w1 w2 w3 : world) :
  same_reports w1 w2 -> same_reports w2 w3 -> same_reports w1 w3.
Proof. intros [H1 H2] [H3 H4]. split; congruence. Qed.

Lemma get_text_reports (url jsondata : string) (w : world) :
  same_reports w (get_text url jsondata w).2.
Proof.
  unfold get_text. destruct (session_get url (net w)) as [[text| |] t]; by split.
Qed.

Lemma jsonload_while_reports (path : string) (retries : nat) :
  forall (jsondata : string) (w : world),
    same_reports w (jsonload_while path jsondata retries w).2.
Proof.
  induction retries as [|retries IH]; intros jsondata w; simpl.
  - apply same_reports_refl.
  - destruct (negb _); [|apply same_reports_refl].
    unfold mbind, prog_bind.
    pose proof (get_text_reports (url_of path) jsondata w) as Hget.
    destruct (get_text (url_of path) jsondata w) as [[jsondata'|e] w1]; [|exact Hget].
    eapply same_reports_trans; [exact Hget | apply IH].
Qed.

Lemma jsonload_reports (path : string) (w : world) :
  same_reports w (jsonload path w).2.
Proof.
  unfold jsonload, mbind, prog_bind.
  pose proof (jsonload_while_reports path 3 "" w) as Hloop.
  destruct (jsonload_while path "" 3 w) as [[jsondata|e] w1]; [|exact Hloop].
  unfold loads. by destruct (json_loads jsondata).
Qed.

Lemma perfscore_request_reports (appliance : pyval) (w : world) :
  same_reports w (perfscore_request appliance w).2.
Proof.
  unfold perfscore_request. rewrite bind_lift.
  destruct (device_path appliance) as [path|e]; [|apply same_reports_refl].
  unfold mbind, prog_bind.
  pose proof (jsonload_reports (path ++ "/performance") w) as Hload.
  destruct (jsonload (path ++ "/performance") w) as [[performance|e] w1]; [|exact Hload].
  unfold lift. exact Hload.
Qed.

(** Lines 124 to 127 never raise: the score is the fetched one, or [None]
    when anything was raised on the way. *)
Lemma fetch_perfscore_total (appliance : pyval) (w : world) :
  fetch_perfscore appliance w =
    (Ok match (perfscore_request appliance w).1 with
        | Ok perfscore => perfscore
        | Raise _ => PNone
        end, (perfscore_request appliance w).2).
Proof.
  unfold fetch_perfscore, try_except.
  by destruct (perfscore_request appliance w) as [[perfscore|e] w1].
Qed.

Lemma fetch_perfscore_reports (appliance : pyval) (w : world) :
  same_reports w (fetch_perfscore appliance w).2.
Proof. rewrite fetch_perfscore_total. apply perfscore_request_reports. Qed.

Lemma same_reports_run {A : Type} (m : prog A) (w w' : world) (r : res A) :
  same_reports w (m w).2 -> m w = (r, w') -> same_reports w w'.
Proof. intros Hsame Hm. by rewrite Hm in Hsame. Qed.

(** ** The appliances loop *)

Lemma device_path_str (device : pyval) (network_id serial : string) :
  getitem device "networkId" = Ok (PStr network_id) ->
  getitem device "serial" = Ok (PStr serial) ->
  device_path device = Ok ((("networks/" ++ network_id) ++ "/devices/") ++ serial).
Proof. intros Hn Hs. unfold device_path. by rewrite Hn, Hs. Qed.

(** The body of the appliances loop, when its fetches succeed, writes the
    row of the run and nothing else into the reports. *)
Lemma appliance_body_run (networks appliance : pyval) (w : world) (r : appliance_run) :
  appliance_fetches_succeed networks appliance w r ->
  appliance_body networks appliance w =
    (Ok tt, with_row File1 (ar_row r) (ar_uplink_world r)) ∧
  same_reports w (ar_uplink_world r).
Proof.
  intros (Hnid & Hserial & Hmac & Hmodel & Hnet & Hname & Htz & Hdetail & Hdname &
          Hfw & Hlat & Hlng & Hperf & Huplink & Hentries).
  split.
  - unfold appliance_body.
    rewrite bind_lift, Hnid. rewrite bind_lift, Hnet. rewrite bind_lift, Hname.
    rewrite bind_lift. cbn [str_add]. rewrite bind_print.
    rewrite bind_lift, (device_path_str _ _ _ Hnid Hserial).
    rewrite (bind_run _ _ _ _ _ Hdetail).
    rewrite bind_lift, Hdname.
    rewrite (bind_run _ _ _ _ _ Hperf).
    rewrite bind_lift. cbn [str_add]. rewrite bind_print, bind_lift.
    rewrite (bind_run _ _ _ _ _ Huplink).
    by apply appliance_emit_row.
  - pose proof (same_reports_run _ _ _ _ (jsonload_reports _ _) Hdetail) as S1.
    pose proof (same_reports_run _ _ _ _ (fetch_perfscore_reports _ _) Hperf) as S2.
    pose proof (same_reports_run _ _ _ _ (jsonload_reports _ _) Huplink) as S3.
    destruct S1 as [? ?], S2 as [? ?], S3 as [? ?]. split; simpl in *; congruence.
Qed.

Lemma with_row_file1 (row : list pyval) (w : world) :
  file_rows (csv_file1 (with_row File1 row w)) = (file_rows (csv_file1 w) ++ [row])%list ∧
  csv_file2 (with_row File1 row w) = csv_file2 w.
Proof. by split. Qed.

Lemma with_row_file2 (row : list pyval) (w : world) :
  file_rows (csv_file2 (with_row File2 row w)) = (file_rows (csv_file2 w) ++ [row])%list ∧
  csv_file1 (with_row File2 row w) = csv_file1 w.
Proof. by split. Qed.

(** The columns of a block no entry of the uplink list reports hold
    [None]. *)
Lemma unreported_block_columns (b : block) (c : string) (timeZone network_name
    device_name serial mac model firmware lat lng perfscore : pyval) (l : list pyval) :
  Forall (fun uplink => entry_block uplink ≠ Some b) l ->
  c ∈ block_columns b ->
  field fieldnames1 c
    (appliance_row timeZone network_name device_name serial mac model firmware lat lng
       perfscore (foldl absorb uplinks_info_init l)) = Some PNone.
Proof.
  intros Hl Hc.
  pose proof (foldl_absorb_untouched b l uplinks_info_init Hl) as Hb.
  unfold appliance_row.
  destruct b; simpl in Hb, Hc; rewrite Hb;
    repeat (apply elem_of_cons in Hc as [->|Hc]; [reflexivity|]);
    by apply elem_of_nil in Hc.
Qed.

(** C3 (appliance completeness).  When the fetches for an appliance succeed,
    the body of the loop writes exactly one row to the appliances report,
    however many of the three interfaces its uplink list reports; the row
    has a value for each of the 27 field names; and the columns of a block
    that no entry reports hold [None], which the writer renders as an empty
    quoted text. *)
Theorem appliance_completeness (networks appliance : pyval) (w : world)
    (r : appliance_run) :
  appliance_fetches_succeed networks appliance w r ->
  (appliance_body networks appliance w).1 = Ok tt ∧
  file_rows (csv_file1 (appliance_body networks appliance w).2) =
    (file_rows (csv_file1 w) ++ [ar_row r])%list ∧
  csv_file2 (appliance_body networks appliance w).2 = csv_file2 w ∧
  length (ar_row r) = length fieldnames1 ∧
  (forall b : block,
     Forall (fun uplink => entry_block uplink ≠ Some b) (ar_uplinks r) ->
     forall c : string,
       c ∈ block_columns b ->
       field fieldnames1 c (ar_row r) = Some PNone ∧ csv_cell PNone = (true, "")).
Proof.
  intros Hrun. destruct (appliance_body_run _ _ _ _ Hrun) as [-> [Hf1 Hf2]].
  destruct (with_row_file1 (ar_row r) (ar_uplink_world r)) as [Hrows Hother].
  cbn [fst snd]. rewrite Hrows, Hother, Hf1, Hf2. do 4 (split; [reflexivity|]).
  intros b Hb c Hc. split; [|reflexivity]. by apply (unreported_block_columns b).
Qed.

(** C6.  When the performance request of an appliance raises, whatever it
    raises, the body of the loop goes on as it does otherwise: the row of
    the device is written, and its Performance column holds [restval], the
    empty text. *)
Theorem performance_failure_keeps_row (networks appliance : pyval) (w : world)
    (r : appliance_run) (e : exn) :
  appliance_fetches_succeed networks appliance w r ->
  (perfscore_request appliance (ar_detail_world r)).1 = Raise e ->
  (appliance_body networks appliance w).1 = Ok tt ∧
  file_rows (csv_file1 (appliance_body networks appliance w).2) =
    (file_rows (csv_file1 w) ++ [ar_row r])%list ∧
  ar_perfscore r = PNone ∧
  field fieldnames1 "Performance" (ar_row r) = Some restval ∧
  csv_cell restval = (true, "").
Proof.
  intros Hrun Hraise. destruct (appliance_body_run _ _ _ _ Hrun) as [-> [Hf1 Hf2]].
  destruct (with_row_file1 (ar_row r) (ar_uplink_world r)) as [Hrows Hother].
  cbn [fst snd]. rewrite Hrows, Hf1.
  assert (Hperf : ar_perfscore r = PNone).
  { destruct Hrun as (_ & _ & _ & _ & _ & _ & _ & _ & _ & _ & _ & _ & Hperf & _).
    rewrite fetch_perfscore_total, Hraise in Hperf. congruence. }
  repeat split; try done.
  unfold ar_row, appliance_row. by rewrite Hperf.
Qed.

(** ** The other devices loop *)

Lemma lookup_key_copied (d : list (string * pyval)) (k : string) :
  k ∈ other_keys ->
  lookup_key (copied d (fromkeys other_keys)) k =
    Ok (cell (copied d (fromkeys other_keys)) k).
Proof.
  intros Hk. apply lookup_key_cell. rewrite lookup_copied.
  destruct (assoc k d); [by eexists|].
  unfold other_keys in Hk.
  repeat (apply elem_of_cons in Hk as [->|Hk]; [by eexists|]).
  by apply elem_of_nil in Hk.
Qed.

(** An empty uplink list ends the body with nothing written. *)
Lemma other_emit_skip (network network_name device_name device : pyval) (w : world) :
  other_emit network network_name device_name device (PList []) w = (Ok tt, w).
Proof. reflexivity. Qed.

(** Of a list that is not empty only the first entry is looked at. *)
Lemma other_emit_first (network network_name device_name device uplink : pyval)
    (rest : list pyval) (w : world) :
  other_emit network network_name device_name device (PList (uplink :: rest)) w =
  other_emit network network_name device_name device (PList [uplink]) w.
Proof. reflexivity. Qed.

Lemma other_emit_row (network network_name device_name device timeZone serial mac
    model : pyval) (d : list (string * pyval)) (rest : list pyval) (w : world) :
  getitem network "timeZone" = Ok timeZone ->
  getitem device "serial" = Ok serial ->
  getitem device "mac" = Ok mac ->
  getitem device "model" = Ok model ->
  other_emit network network_name device_name device (PList (PDict d :: rest)) w =
  (Ok tt, with_row File2
            (other_row timeZone network_name device_name serial mac model
               (copied d (fromkeys other_keys))) w).
Proof.
  intros Htz Hserial Hmac Hmodel. unfold other_emit.
  cbn [py_eq getitem0]. rewrite bind_lift, bind_lift, copy_fields_dict.
  unfold mbind at 1. unfold prog_bind, lift, other_csvline.
  rewrite Htz, Hserial, Hmac, Hmodel. cbn [mbind res_bind].
  rewrite !lookup_key_copied by solve_elem_of.
  cbn [mbind res_bind mret res_ret]. unfold writerow, mbind, prog_bind, lift.
  rewrite dict_to_list_other. reflexivity.
Qed.

(** The body of the loop over the other devices, when its fetches succeed,
    ends in what is done with the uplink list. *)
Lemma other_body_run (networks device : pyval) (w : world) (r : other_run) :
  other_fetches_succeed networks device w r ->
  other_body networks device w =
    other_emit (or_network r) (PStr (or_network_name r)) (PStr (or_device_name r))
      device (PList (or_uplink r)) (or_uplink_world r) ∧
  same_reports w (or_uplink_world r).
Proof.
  intros (Hnid & Hserial & Hmac & Hmodel & Hnet & Hname & Htz & Hdetail & Hdname &
          Huplink & Hentries).
  split.
  - unfold other_body.
    rewrite bind_lift, Hnid. rewrite bind_lift, Hnet. rewrite bind_lift, Hname.
    rewrite bind_lift. cbn [str_add]. rewrite bind_print.
    rewrite bind_lift, (device_path_str _ _ _ Hnid Hserial).
    rewrite (bind_run _ _ _ _ _ Hdetail).
    rewrite bind_lift, Hdname.
    rewrite bind_lift. cbn [str_add]. rewrite bind_print, bind_lift.
    by rewrite (bind_run _ _ _ _ _ Huplink).
  - pose proof (same_reports_run _ _ _ _ (jsonload_reports _ _) Hdetail) as S1.
    pose proof (same_reports_run _ _ _ _ (jsonload_reports _ _) Huplink) as S2.
    destruct S1 as [? ?], S2 as [? ?]. split; simpl in *; congruence.
Qed.

(** C2 (skip law).  When the fetches for a device of the second partition
    succeed: an empty uplink list makes the body end normally with both
    reports as they were; a list that is not empty makes it write exactly
    one row to the other devices report, the row built from the first entry
    of the list, whatever entries follow it. *)
Theorem other_skip_law (networks device : pyval) (w : world) (r : other_run) :
  other_fetches_succeed networks device w r ->
  (or_uplink r = [] ->
     (other_body networks device w).1 = Ok tt ∧
     same_reports w (other_body networks device w).2) ∧
  (forall (uplink : pyval) (rest : list pyval),
     or_uplink r = uplink :: rest ->
     (other_body networks device w).1 = Ok tt ∧
     file_rows (csv_file2 (other_body networks device w).2) =
       (file_rows (csv_file2 w) ++ [or_row r uplink])%list ∧
     csv_file1 (other_body networks device w).2 = csv_file1 w).
Proof.
  intros Hrun. destruct (other_body_run _ _ _ _ Hrun) as [-> [Hf1 Hf2]].
  destruct Hrun as (_ & Hserial & Hmac & Hmodel & _ & _ & Htz & _ & _ & _ & Hentries).
  split.
  - intros ->. by rewrite other_emit_skip.
  - intros uplink rest Hlist. rewrite Hlist in Hentries |- *.
    apply Forall_cons in Hentries as [Hdict _].
    destruct uplink as [| | | | | |d]; try discriminate.
    rewrite (other_emit_row _ _ _ _ _ _ _ _ d rest _ Htz Hserial Hmac Hmodel).
    destruct (with_row_file2 (or_row r (PDict d)) (or_uplink_world r)) as [Hrows Hother].
    cbn [fst snd]. split; [reflexivity|].
    unfold or_row in Hrows, Hother. cbn [entry_dict] in Hrows, Hother.
    rewrite Hrows, Hother, Hf1, Hf2. by unfold or_row.
Qed.

(** ** Failures that nothing catches *)

Lemma for_each_raise {A : Type} (body : A -> prog unit) (x : A) (l : list A)
    (w w' : world) (e : exn) :
  body x w = (Raise e, w') -> for_each (x :: l) body w = (Raise e, w').
Proof. intros Hbody. simpl. unfold mbind, prog_bind. by rewrite Hbody. Qed.

Lemma appliance_body_unresolved (networks appliance network_id : pyval) (e : exn)
    (w : world) :
  getitem appliance "networkId" = Ok network_id ->
  get_network network_id networks = Raise e ->
  appliance_body networks appliance w = (Raise e, w).
Proof.
  intros Hnid Hnet. unfold appliance_body. by rewrite bind_lift, Hnid, bind_lift, Hnet.
Qed.

Lemma other_body_unresolved (networks device network_id : pyval) (e : exn) (w : world) :
  getitem device "networkId" = Ok network_id ->
  get_network network_id networks = Raise e ->
  other_body networks device w = (Raise e, w).
Proof.
  intros Hnid Hnet. unfold other_body. by rewrite bind_lift, Hnid, bind_lift, Hnet.
Qed.

(** C7, as amended.  Over network records that all carry an id: when no
    record matches the network id of a device the resolver raises
    IndexError, which nothing catches, so that the body of either loop
    raises it before any request or row and the loop ends there; when
    records match, one or several, the resolver returns the first of them
    and raises nothing. *)
Theorem get_network_lookup (network_id : pyval) (l : list pyval) :
  Forall (fun element => is_ok (getitem element "id") = true) l ->
  (List.filter (id_matches network_id) l = [] ->
     get_network network_id (PList l) = Raise IndexError ∧
     forall (device : pyval) (rest : list pyval) (w : world),
       getitem device "networkId" = Ok network_id ->
       for_each (device :: rest) (appliance_body (PList l)) w = (Raise IndexError, w) ∧
       for_each (device :: rest) (other_body (PList l)) w = (Raise IndexError, w)) ∧
  (forall (network : pyval) (others : list pyval),
     List.filter (id_matches network_id) l = network :: others ->
     get_network network_id (PList l) = Ok network).
Proof.
  intros Hl. pose proof (get_network_first_match network_id l Hl) as Hget.
  split.
  - intros Hnone. rewrite Hnone in Hget. split; [exact Hget|].
    intros device rest w Hnid. split; apply for_each_raise.
    + by apply (appliance_body_unresolved _ _ network_id).
    + by apply (other_body_unresolved _ _ network_id).
  - intros network others Hsome. by rewrite Hsome in Hget.
Qed.

(** * Further properties *)

(** ** The fetcher, whatever the endpoint does *)

Lemma replicate_snoc_app {A : Type} (n : nat) (x : A) (l : list A) :
  (replicate n x ++ x :: l)%list = (replicate (S n) x ++ l)%list.
Proof. induction n as [|n IH]; simpl; [done | by rewrite IH]. Qed.

(** The loop makes at most [retries] requests, all for the same URL, at
    least one when it starts with no data and a retry left; it sleeps at
    most one second per request and prints nothing. *)
Lemma jsonload_while_effect (path : string) (retries : nat) :
  forall (jsondata : string) (w : world),
    exists n,
      n <= retries ∧
      (jsondata = "" -> 0 < retries -> 1 <= n) ∧
      gets (jsonload_while path jsondata retries w).2 =
        (replicate n (url_of path) ++ gets w)%list ∧
      slept w <= slept (jsonload_while path jsondata retries w).2 ∧
      slept (jsonload_while path jsondata retries w).2 <= slept w + n ∧
      stdout (jsonload_while path jsondata retries w).2 = stdout w.
Proof.
  induction retries as [|retries IH]; intros jsondata w.
  - exists 0. simpl. repeat split; lia.
  - cbn [jsonload_while]. destruct (negb (0 <? String.length jsondata)) eqn:Eempty.
    + unfold mbind, prog_bind, get_text.
      destruct (session_get (url_of path) (net w)) as [[text| |] t]; cbn [fst snd].
      * match goal with |- context [jsonload_while path text retries ?w1] =>
          destruct (IH text w1) as (n & Hn & _ & Hgets & Hlo & Hhi & Hout) end.
        destruct (jsonload_while path text retries _) as [r w2]. cbn [fst snd] in *.
        exists (S n). rewrite Hgets, Hout. cbn [gets slept stdout] in *.
        rewrite replicate_snoc_app. repeat split; lia.
      * unfold sleep, mbind, prog_bind, mret, prog_ret. cbn [fst snd net gets slept stdout
          csv_file1 csv_file2].
        match goal with |- context [jsonload_while path jsondata retries ?w1] =>
          destruct (IH jsondata w1) as (n & Hn & _ & Hgets & Hlo & Hhi & Hout) end.
        destruct (jsonload_while path jsondata retries _) as [r w2]. cbn [fst snd] in *.
        exists (S n). rewrite Hgets, Hout. cbn [gets slept stdout] in *.
        rewrite replicate_snoc_app. repeat split; lia.
      * exists 1. cbn [gets slept stdout]. repeat split; lia.
    + exists 0. simpl. repeat split; try lia.
      intros ->. discriminate.
Qed.

Lemma jsonload_effect (path : string) (w : world) :
  exists n,
    1 <= n <= 3 ∧
    gets (jsonload path w).2 = (replicate n (url_of path) ++ gets w)%list ∧
    slept w <= slept (jsonload path w).2 <= slept w + n ∧
    stdout (jsonload path w).2 = stdout w ∧
    same_reports w (jsonload path w).2.
Proof.
  destruct (jsonload_while_effect path 3 "" w) as (n & Hn & Hone & Hgets & Hlo & Hhi & Hout).
  exists n. split; [split; [apply Hone; [done | lia] | exact Hn]|].
  split; [|split; [|split; [|apply jsonload_reports]]].
  all: unfold jsonload, mbind, prog_bind.
  all: destruct (jsonload_while path "" 3 w) as [[jsondata|e] w1]; cbn [fst snd] in *;
    try done; unfold loads; destruct (json_loads jsondata); done.
Qed.

(** X1.  Whatever the endpoint does, one call of [jsonload] makes at least
    one and at most three requests, all for the URL of its path; it sleeps
    at most one second per request; it prints nothing and leaves both
    reports as they were. *)
Theorem jsonload_bounds (path : string) (w : world) :
  exists n,
    1 <= n <= 3 ∧
    gets (jsonload path w).2 = (replicate n (url_of path) ++ gets w)%list ∧
    slept w <= slept (jsonload path w).2 <= slept w + n ∧
    stdout (jsonload path w).2 = stdout w ∧
    same_reports w (jsonload path w).2.
Proof. apply jsonload_effect. Qed.

(** An exception of the transport that is none of the four [jsonload]
    catches ends the loop at once. *)
Lemma jsonload_while_other_error (path : string) (rs : list response) :
  Forall (fun r => retriable r = true) rs ->
  forall (retries : nat) (w : world),
    length rs < retries ->
    serves (url_of path) (rs ++ [OtherError]) (net w) ->
    exists t, jsonload_while path "" retries w =
      (Raise TransportError,
       after_requests (url_of path) (S (length rs)) (transient_count rs) t w).
Proof.
  intros Hrs. induction Hrs as [|r rs Hr _ IH]; intros retries w Hlen Hserves.
  - destruct retries as [|k]; [simpl in Hlen; lia|].
    simpl in Hserves. destruct Hserves as [Hget _].
    exists (session_get (url_of path) (net w)).2.
    cbn [jsonload_while String.length Nat.ltb Nat.leb negb].
    unfold mbind, prog_bind, get_text, after_requests.
    destruct (session_get (url_of path) (net w)) as [r t]. simpl in Hget. subst r.
    unfold transient_count. simpl. do 2 f_equal. lia.
  - destruct retries as [|k]; [simpl in Hlen; lia|].
    simpl in Hserves. destruct Hserves as [Hget Hserves].
    cbn [jsonload_while String.length Nat.ltb Nat.leb negb].
    unfold mbind, prog_bind. rewrite (get_text_retriable _ r) by done.
    set (w1 := after_requests _ _ _ _ w).
    destruct (IH k w1) as [t Ht].
    + simpl in Hlen. lia.
    + exact Hserves.
    + exists t. rewrite Ht. unfold w1. rewrite after_requests_compose. do 2 f_equal.
      * simpl. lia.
      * unfold transient_count. simpl. destruct (is_transient r); simpl; lia.
Qed.

(** X2.  When, after fewer than three outcomes that make [jsonload] ask
    again, the transport raises an exception that is none of the four it
    catches, the call raises that exception at once: no further request, no
    sleep for it, no decoding. *)
Theorem jsonload_propagates_other_errors (path : string) (rs : list response) (w : world) :
  Forall (fun r => retriable r = true) rs ->
  length rs < 3 ->
  serves (url_of path) (rs ++ [OtherError]) (net w) ->
  (jsonload path w).1 = Raise TransportError ∧
  gets (jsonload path w).2 = (replicate (S (length rs)) (url_of path) ++ gets w)%list ∧
  slept (jsonload path w).2 = slept w + transient_count rs.
Proof.
  intros Hrs Hlen Hserves.
  destruct (jsonload_while_other_error path rs Hrs 3 w Hlen Hserves) as [t Ht].
  unfold jsonload, mbind, prog_bind. by rewrite Ht.
Qed.

(** X3.  When each of the three requests ends in an exception [jsonload]
    catches or in an empty body, in any mix, the call raises the parse
    failure of the empty text after exactly three requests, having slept
    one second per exception and none per empty body. *)
Theorem jsonload_gives_up (path : string) (rs : list response) (w : world) :
  Forall (fun r => retriable r = true) rs ->
  length rs = 3 ->
  serves (url_of path) rs (net w) ->
  (jsonload path w).1 = Raise JSONDecodeError ∧
  gets (jsonload path w).2 = (replicate 3 (url_of path) ++ gets w)%list ∧
  slept (jsonload path w).2 = slept w + transient_count rs.
Proof.
  intros Hrs Hlen Hserves.
  destruct (jsonload_while_exhausted path rs Hrs w Hserves) as [t Ht].
  rewrite Hlen in Ht. unfold jsonload, mbind, prog_bind. rewrite Ht.
  unfold loads. by rewrite json_loads_empty.
Qed.

(** ** The first request of the script *)

(** X4.  When the request for the organization or the lookup of its name
    raises anything at all, the script ends in [sys.exit] with its one-line
    message: nothing more is requested than the at most three attempts of
    that fetch, nothing is printed, and no report is opened or written. *)
Theorem main_exits_on_organization_failure (ORG_ID : string) (w : world) (e : exn) :
  (organization_name ORG_ID w).1 = Raise e ->
  main ORG_ID w = (Raise (SystemExit exit_message), (organization_name ORG_ID w).2) ∧
  (exists n, n <= 3 ∧
     gets (organization_name ORG_ID w).2 =
       (replicate n (url_of ("organizations/" ++ ORG_ID)) ++ gets w)%list) ∧
  stdout (organization_name ORG_ID w).2 = stdout w ∧
  same_reports w (organization_name ORG_ID w).2.
Proof.
  intros Hraise.
  destruct (jsonload_effect ("organizations/" ++ ORG_ID) w)
    as (n & [_ Hn] & Hgets & _ & Hout & Hsame).
  assert (Hworld : (organization_name ORG_ID w).2 =
                   (jsonload ("organizations/" ++ ORG_ID) w).2).
  { unfold organization_name, mbind, prog_bind, lift.
    by destruct (jsonload ("organizations/" ++ ORG_ID) w) as [[organization|e'] w1]. }
  split.
  - unfold main. unfold mbind at 1. unfold prog_bind at 1. unfold try_except.
    fold (organization_name ORG_ID).
    destruct (organization_name ORG_ID w) as [[name|e'] w1]; [discriminate|].
    reflexivity.
  - rewrite Hworld. split; [by exists n|]. by split.
Qed.

(** ** The network resolver, whatever the networks are *)

Lemma filter_res_inv {A : Type} (p : A -> res bool) (l : list A) :
  forall r : list A,
    filter_res p l = Ok r ->
    Forall (fun x => is_ok (p x) = true) l ∧
    r = List.filter (fun x => match p x with
                              | Ok b => b
                              | Raise _ => false
                              end) l.
Proof.
  induction l as [|x l IH]; intros r; simpl.
  - intros [= <-]. by split.
  - destruct (p x) as [b|e] eqn:Ep; [|discriminate]. simpl.
    destruct (filter_res p l) as [r'|e]; [|discriminate]. simpl.
    intros [= <-]. destruct (IH r' eq_refl) as [Hall ->].
    split; [constructor; [by rewrite Ep | exact Hall] | by destruct b].
Qed.

Lemma filter_head_split {A : Type} (q : A -> bool) (l : list A) :
  forall (x : A) (rest : list A),
    List.filter q l = x :: rest ->
    exists before after,
      l = (before ++ x :: after)%list ∧
      Forall (fun y => q y = false) before ∧ q x = true.
Proof.
  induction l as [|y l IH]; intros x rest; simpl; [discriminate|].
  destruct (q y) eqn:Ey.
  - intros [= <- _]. by exists [], l.
  - intros Hfilter. destruct (IH x rest Hfilter) as (before & after & -> & Hbefore & Hx).
    exists (y :: before), after. repeat split; [by constructor | exact Hx].
Qed.

(** X5.  Whenever the resolver returns a record, the networks are a list,
    every record of the list carries an id, and the record returned is the
    first one of the list whose id equals the network id asked for. *)
Theorem get_network_sound (network_id networks network : pyval) :
  get_network network_id networks = Ok network ->
  exists before after,
    networks = PList (before ++ network :: after) ∧
    id_matches network_id network = true ∧
    Forall (fun element => id_matches network_id element = false) before ∧
    Forall (fun element => is_ok (getitem element "id") = true)
      (before ++ network :: after).
Proof.
  unfold get_network. intros Hget.
  destruct (iter networks) as [elements|e] eqn:Eiter; [|discriminate]. simpl in Hget.
  destruct (filter_res _ elements) as [matches|e] eqn:Efilter; [|discriminate].
  simpl in Hget. apply filter_res_inv in Efilter as [Hbinds ->].
  assert (Hids : Forall (fun element => is_ok (getitem element "id") = true) elements).
  { eapply Forall_impl; [exact Hbinds|]. intros element. simpl.
    by destruct (getitem element "id"). }
  clear Hbinds.
  destruct (List.filter _ elements) as [|first rest] eqn:Ematches; [discriminate|].
  injection Hget as ->.
  apply filter_head_split in Ematches as (before & after & -> & Hbefore & Hfirst).
  assert (Hsame : forall element,
             is_ok (getitem element "id") = true ->
             match getitem element "id" ≫= (fun id => mret (py_eq network_id id)) with
             | Ok b => b
             | Raise _ => false
             end = id_matches network_id element).
  { intros element. unfold id_matches. by destruct (getitem element "id"). }
  exists before, after. split; [|split; [|split]].
  - destruct networks as [| | | |s|l|d]; try discriminate.
    + exfalso. simpl in Eiter. injection Eiter as Hchars.
      assert (Hin : network ∈ chars s) by (rewrite Hchars; set_solver).
      assert (Hstr : forall x, x ∈ chars s -> exists c, x = PStr c).
      { clear. induction s as [|c s IH]; simpl; intros x Hx; [by apply elem_of_nil in Hx|].
        apply elem_of_cons in Hx as [->|Hx]; [by eexists | by apply IH]. }
      destruct (Hstr _ Hin) as [c ->]. rewrite Forall_forall in Hids.
      specialize (Hids (PStr c)). rewrite <- Hchars in Hids.
      by specialize (Hids Hin).
    + by injection Eiter as ->.
    + exfalso. simpl in Eiter. injection Eiter as Hkeys.
      assert (Hin : network ∈ PStr <$> d.*1) by (rewrite Hkeys; set_solver).
      apply list_elem_of_fmap in Hin as (k & -> & _).
      rewrite Forall_forall in Hids. specialize (Hids (PStr k)).
      rewrite <- Hkeys in Hids.
      assert (Hk : PStr k ∈ (PStr <$> d.*1)) by (rewrite Hkeys; set_solver).
      by specialize (Hids Hk).
  - rewrite <- Hsame; [exact Hfirst|].
    rewrite Forall_forall in Hids. apply Hids. set_solver.
  - rewrite Forall_forall in Hids, Hbefore |- *. intros element Hel.
    rewrite <- Hsame; [by apply Hbefore | apply Hids; set_solver].
  - exact Hids.
Qed.

(** ** The classifier, whatever the inventory is *)

Lemma sublist_List_filter {A : Type} (q : A -> bool) (l : list A) :
  List.filter q l `sublist_of` l.
Proof.
  induction l as [|x l IH]; simpl; [constructor|].
  destruct (q x); by constructor.
Qed.

Lemma imap_snd (l : list pyval) :
  forall f : nat -> pyval -> nat * pyval,
    (forall i x, (f i x).2 = x) -> (imap f l).*2 = l.
Proof.
  induction l as [|x l IH]; intros f Hf; [reflexivity|].
  simpl. rewrite Hf, IH; [done|]. intros i y. apply Hf.
Qed.

Lemma objects_snd (l : list pyval) : (objects l).*2 = l.
Proof. by apply imap_snd. Qed.

Lemma is_appliance_true (device : pyval) :
  is_appliance device = Ok true ->
  exists model prefix network_id,
    getitem device "model" = Ok model ∧
    slice2 model = Ok prefix ∧
    in_prefixes prefix = true ∧
    getitem device "networkId" = Ok network_id ∧
    is_None network_id = false.
Proof.
  unfold is_appliance.
  destruct (getitem device "model") as [model|]; [|discriminate]. simpl.
  destruct (slice2 model) as [prefix|] eqn:Eslice; [|discriminate]. simpl.
  destruct (in_prefixes prefix) eqn:Eprefix; [|discriminate].
  destruct (getitem device "networkId") as [network_id|]; [|discriminate]. simpl.
  intros [= Hnid]. exists model, prefix, network_id.
  repeat split; try done. by destruct (is_None network_id).
Qed.

(** X6.  Whenever the two comprehensions succeed, on any inventory: both
    lists are sub-sequences of the inventory, in its order; every device in
    either list has a network id that is not null; the model code of every
    appliance can be sliced and its first two characters are one of the
    prefixes; and no device of the second list compares equal to an
    appliance. *)
Theorem classify_sound (inventory : pyval) (appliances devices : list pyval) :
  classify inventory = Ok (appliances, devices) ->
  exists devs,
    iter inventory = Ok devs ∧
    appliances `sublist_of` devs ∧
    devices `sublist_of` devs ∧
    (forall a, a ∈ appliances ->
       exists model prefix network_id,
         getitem a "model" = Ok model ∧
         slice2 model = Ok prefix ∧
         in_prefixes prefix = true ∧
         getitem a "networkId" = Ok network_id ∧
         is_None network_id = false) ∧
    (forall d, d ∈ devices ->
       (exists network_id,
          getitem d "networkId" = Ok network_id ∧ is_None network_id = false) ∧
       (forall a, a ∈ appliances -> py_eq a d = false)).
Proof.
  unfold classify. intros Hclassify.
  destruct (iter inventory) as [devs|e]; [|discriminate]. simpl in Hclassify.
  destruct (filter_res _ (objects devs)) as [apps|e] eqn:Eapps; [|discriminate].
  simpl in Hclassify.
  destruct (filter_res (is_other apps) (objects devs)) as [others|e] eqn:Eothers;
    [|discriminate].
  simpl in Hclassify. injection Hclassify as <- <-.
  apply filter_res_inv in Eapps as [_ Happs].
  apply filter_res_inv in Eothers as [_ Hothers].
  exists devs. split; [reflexivity|]. split; [|split; [|split]].
  - assert (Hsub : apps.*2 `sublist_of` (objects devs).*2)
      by (apply fmap_sublist; rewrite Happs; apply sublist_List_filter).
    by rewrite objects_snd in Hsub.
  - assert (Hsub : others.*2 `sublist_of` (objects devs).*2)
      by (apply fmap_sublist; rewrite Hothers; apply sublist_List_filter).
    by rewrite objects_snd in Hsub.
  - intros a Ha. apply list_elem_of_fmap in Ha as (x & -> & Hx).
    rewrite Happs in Hx. apply list_elem_of_In, filter_In in Hx as [_ Hx].
    apply is_appliance_true. by destruct (is_appliance x.2) as [[|]|].
  - intros d Hd. apply list_elem_of_fmap in Hd as (x & -> & Hx).
    rewrite Hothers in Hx. apply list_elem_of_In, filter_In in Hx as [_ Hx].
    unfold is_other in Hx. destruct (py_in x apps) eqn:Ein; [discriminate|].
    simpl in Hx. split.
    + destruct (getitem x.2 "networkId") as [network_id|]; [|discriminate].
      exists network_id. split; [reflexivity|]. simpl in Hx.
      by destruct (is_None network_id).
    + intros a Ha. apply list_elem_of_fmap in Ha as (y & -> & Hy).
      apply not_true_is_false. intros Heq.
      assert (py_in x apps = true); [|congruence].
      apply existsb_exists. exists y. split; [by apply list_elem_of_In|].
      rewrite Heq. apply orb_true_r.
Qed.

(** ** What the uplink columns hold *)

Lemma lookup_foldl_absorb (b : block) (k : string) (l : list pyval) :
  forall info : uplinks_info,
    bucket b (foldl absorb info l) !! k =
      match last_reported b k l with
      | Some v => Some (PStr (py_str v))
      | None => bucket b info !! k
      end.
Proof.
  induction l as [|uplink l IH]; intros info; [reflexivity|].
  simpl. rewrite IH. destruct (last_reported b k l) as [v|]; [reflexivity|].
  case_decide as Hb.
  - rewrite absorb_hit, lookup_copied by done. by destruct (assoc k _).
  - by rewrite absorb_miss.
Qed.

(** X7.  The loop over the uplink list of an appliance, on entries that all
    carry an interface label, raises nothing and leaves in each of the three
    buckets, for each of its seven fields, the [str] of the value given by
    the last entry of that label that reports the field, and [None] when no
    entry of that label reports it. *)
Theorem normalize_appliance_reports (l : list pyval) :
  Forall (fun uplink => uplink_entry uplink = true) l ->
  exists info,
    normalize_appliance (PList l) = Ok info ∧
    forall (b : block) (k : string),
      k ∈ block_keys b ->
      bucket b info !! k = Some (column_of (last_reported b k l)).
Proof.
  intros Hl. eexists. split; [by apply normalize_appliance_foldl|].
  intros b k Hk. rewrite lookup_foldl_absorb, init_bucket by done.
  by destruct (last_reported b k l).
Qed.

Lemma cell_foldl_absorb (b : block) (k : string) (l : list pyval) :
  k ∈ block_keys b ->
  cell (bucket b (foldl absorb uplinks_info_init l)) k = column_of (last_reported b k l).
Proof.
  intros Hk. unfold cell. rewrite lookup_foldl_absorb, init_bucket by done.
  by destruct (last_reported b k l).
Qed.

(** X8.  When the fetches for an appliance succeed, each of the eighteen
    uplink columns of the row it writes holds the [str] of the value that
    the last entry of its interface reports for its field, and [None] when
    no entry of that interface reports the field: a field reported as null
    shows as the text 'None', a field not reported as an empty column. *)
Theorem appliance_row_columns (networks appliance : pyval) (w : world)
    (r : appliance_run) :
  appliance_fetches_succeed networks appliance w r ->
  forall (c : string) (b : block) (k : string),
    (c, (b, k)) ∈ appliance_columns ->
    last (file_rows (csv_file1 (appliance_body networks appliance w).2))
      ≫= field fieldnames1 c =
    Some (column_of (last_reported b k (ar_uplinks r))).
Proof.
  intros Hrun c b k Hc. destruct (appliance_body_run _ _ _ _ Hrun) as [-> _].
  destruct (with_row_file1 (ar_row r) (ar_uplink_world r)) as [Hrows _].
  cbn [fst snd]. rewrite Hrows, last_snoc. cbn [mbind option_bind].
  unfold ar_row, appliance_row. set (info := foldl absorb uplinks_info_init _).
  change (WAN1 info) with (bucket BlockWAN1 info).
  change (WAN2 info) with (bucket BlockWAN2 info).
  change (Cellular info) with (bucket BlockCellular info).
  unfold info, appliance_columns in *.
  repeat (apply elem_of_cons in Hc as [[= -> -> ->]|Hc];
          [rewrite <- cell_foldl_absorb by solve_elem_of; reflexivity|]).
  by apply elem_of_nil in Hc.
Qed.

(** X9.  When the fetches for a device of the second partition succeed and
    its uplink list is not empty, each of the seven uplink columns of the
    row it writes holds the [str] of the value the first entry reports for
    its field, and [None] when the first entry does not report it. *)
Theorem other_row_columns (networks device : pyval) (w : world) (r : other_run)
    (uplink : pyval) (rest : list pyval) :
  other_fetches_succeed networks device w r ->
  or_uplink r = uplink :: rest ->
  forall c k : string,
    (c, k) ∈ other_columns ->
    last (file_rows (csv_file2 (other_body networks device w).2))
      ≫= field fieldnames2 c =
    Some (column_of (assoc k (entry_dict uplink))).
Proof.
  intros Hrun Hlist c k Hc. destruct (other_body_run _ _ _ _ Hrun) as [-> _].
  destruct Hrun as (_ & Hserial & Hmac & Hmodel & _ & _ & Htz & _ & _ & _ & Hentries).
  rewrite Hlist in Hentries |- *. apply Forall_cons in Hentries as [Hdict _].
  destruct uplink as [| | | | | |d]; try discriminate.
  rewrite (other_emit_row _ _ _ _ _ _ _ _ d rest _ Htz Hserial Hmac Hmodel).
  match goal with |- context [with_row File2 ?row ?w2] =>
    destruct (with_row_file2 row w2) as [Hrows _] end.
  cbn [fst snd]. rewrite Hrows, last_snoc. cbn [mbind option_bind entry_dict].
  assert (Hcell : forall key, key ∈ other_keys ->
            cell (copied d (fromkeys other_keys)) key = column_of (assoc key d)).
  { intros key Hkey. unfold cell. rewrite lookup_copied.
    destruct (assoc key d); [reflexivity|].
    unfold other_keys in Hkey.
    repeat (apply elem_of_cons in Hkey as [->|Hkey]; [reflexivity|]).
    by apply elem_of_nil in Hkey. }
  unfold other_row, other_columns in *.
  repeat (apply elem_of_cons in Hc as [[= -> ->]|Hc];
          [rewrite <- Hcell by solve_elem_of; reflexivity|]).
  by apply elem_of_nil in Hc.
Qed.

(** ** The name of a device *)

Lemma assoc_not_elem_of (k : string) (d : list (string * pyval)) :
  k ∉ d.*1 -> assoc k d = None.
Proof.
  intros Hk. destruct (assoc k d) as [v|] eqn:Ek; [|reflexivity].
  exfalso. apply Hk. clear Hk. induction d as [|[k' v'] d IH]; [discriminate|].
  simpl in *. destruct (String.eqb k k') eqn:E.
  - apply String.eqb_eq in E as ->. left.
  - right. by apply IH.
Qed.

(** The name is the value of 'name' when the detail record has that key,
    whatever the value, and the value of 'serial' when it has not. *)
Lemma device_name_of_inv (device_info v : pyval) :
  device_name_of device_info = Ok v ->
  getitem device_info "name" = Ok v ∨
  getitem device_info "name" = Raise KeyError ∧ getitem device_info "serial" = Ok v.
Proof.
  destruct device_info as [| | | | | |d]; try discriminate.
  unfold device_name_of. cbn [keys mbind res_bind]. case_bool_decide as Hname.
  - by left.
  - intros Hserial. right. split; [|exact Hserial].
    simpl. by rewrite (assoc_not_elem_of _ _ Hname).
Qed.

(** X10.  When the fetches for an appliance succeed, the Device column of
    the row it writes holds the name of the detail record when that record
    has a 'name' key, and the serial of the detail record when it has
    none. *)
Theorem appliance_device_column (networks appliance : pyval) (w : world)
    (r : appliance_run) :
  appliance_fetches_succeed networks appliance w r ->
  exists device_name,
    last (file_rows (csv_file1 (appliance_body networks appliance w).2))
      ≫= field fieldnames1 "Device" = Some device_name ∧
    (getitem (ar_device_info r) "name" = Ok device_name ∨
     getitem (ar_device_info r) "name" = Raise KeyError ∧
     getitem (ar_device_info r) "serial" = Ok device_name).
Proof.
  intros Hrun. destruct (appliance_body_run _ _ _ _ Hrun) as [-> _].
  destruct (with_row_file1 (ar_row r) (ar_uplink_world r)) as [Hrows _].
  exists (PStr (ar_device_name r)). split.
  - cbn [fst snd]. by rewrite Hrows, last_snoc.
  - apply device_name_of_inv.
    by destruct Hrun as (_ & _ & _ & _ & _ & _ & _ & _ & Hname & _).
Qed.

(** X11.  The same for a device of the second partition whose uplink list
    is not empty. *)
Theorem other_device_column (networks device : pyval) (w : world) (r : other_run) :
  other_fetches_succeed networks device w r ->
  or_uplink r ≠ [] ->
  exists device_name,
    last (file_rows (csv_file2 (other_body networks device w).2))
      ≫= field fieldnames2 "Device" = Some device_name ∧
    (getitem (or_device_info r) "name" = Ok device_name ∨
     getitem (or_device_info r) "name" = Raise KeyError ∧
     getitem (or_device_info r) "serial" = Ok device_name).
Proof.
  intros Hrun Hlist. destruct (other_body_run _ _ _ _ Hrun) as [-> _].
  destruct Hrun as (_ & Hserial & Hmac & Hmodel & _ & _ & Htz & _ & Hname & _ & Hentries).
  destruct (or_uplink r) as [|uplink rest]; [done|].
  apply Forall_cons in Hentries as [Hdict _].
  destruct uplink as [| | | | | |d]; try discriminate.
  rewrite (other_emit_row _ _ _ _ _ _ _ _ d rest _ Htz Hserial Hmac Hmodel).
  match goal with |- context [with_row File2 ?row ?w2] =>
    destruct (with_row_file2 row w2) as [Hrows _] end.
  exists (PStr (or_device_name r)). split.
  - cbn [fst snd]. by rewrite Hrows, last_snoc.
  - by apply device_name_of_inv.
Qed.

(** X12.  When the detail record binds 'name' to a value that is no string
    (null, say), or has no 'name' and a serial that is no string, the body
    of either loop raises TypeError at the line that prints the name: no row
    is written for the device, and the loop over the appliances has by then
    made its performance request. *)
Theorem name_not_a_string_aborts (networks device network device_info v : pyval)
    (network_id serial network_name : string) (w w1 : world) :
  getitem device "networkId" = Ok (PStr network_id) ->
  getitem device "serial" = Ok (PStr serial) ->
  get_network (PStr network_id) networks = Ok network ->
  getitem network "name" = Ok (PStr network_name) ->
  jsonload ((("networks/" ++ network_id) ++ "/devices/") ++ serial)
    (print ("Looking into network " ++ network_name) w).2 = (Ok device_info, w1) ->
  device_name_of device_info = Ok v ->
  (forall s, v ≠ PStr s) ->
  appliance_body networks device w = (Raise TypeError, (fetch_perfscore device w1).2) ∧
  other_body networks device w = (Raise TypeError, w1) ∧
  same_reports w (fetch_perfscore device w1).2 ∧
  same_reports w w1.
Proof.
  intros Hnid Hserial Hnet Hname Hdetail Hdname Hv.
  assert (Hadd : forall s, str_add s v = Raise TypeError).
  { intros s. destruct v; try reflexivity. by destruct (Hv s0). }
  assert (Hsame : same_reports w w1).
  { pose proof (same_reports_run _ _ _ _ (jsonload_reports _ _) Hdetail) as [? ?].
    by split. }
  split; [|split; [|split]].
  - unfold appliance_body.
    rewrite bind_lift, Hnid. rewrite bind_lift, Hnet. rewrite bind_lift, Hname.
    rewrite bind_lift. cbn [str_add]. rewrite bind_print.
    rewrite bind_lift, (device_path_str _ _ _ Hnid Hserial).
    rewrite (bind_run _ _ _ _ _ Hdetail).
    rewrite bind_lift, Hdname.
    rewrite (bind_run _ _ _ _ _ (fetch_perfscore_total device w1)).
    by rewrite bind_lift, Hadd, fetch_perfscore_total.
  - unfold other_body.
    rewrite bind_lift, Hnid. rewrite bind_lift, Hnet. rewrite bind_lift, Hname.
    rewrite bind_lift. cbn [str_add]. rewrite bind_print.
    rewrite bind_lift, (device_path_str _ _ _ Hnid Hserial).
    rewrite (bind_run _ _ _ _ _ Hdetail).
    rewrite bind_lift, Hdname.
    by rewrite bind_lift, Hadd.
  - eapply same_reports_trans; [exact Hsame | apply fetch_perfscore_reports].
  - exact Hsame.
Qed.

(** ** What the body of a loop does to the reports, whatever it meets *)

Lemma rows_added_same (n : fileno) (fieldnames : list string) (w w' : world) :
  same_reports w w' -> rows_added n fieldnames w w' [].
Proof.
  intros [H1 H2]. unfold rows_added. rewrite app_nil_r.
  destruct n; simpl; rewrite ?H1, ?H2; by repeat split.
Qed.

Lemma rows_added_compose (n : fileno) (fieldnames : list string) (w1 w2 w3 : world)
    (rows rows' : list (list pyval)) :
  rows_added n fieldnames w1 w2 rows ->
  rows_added n fieldnames w2 w3 rows' ->
  rows_added n fieldnames w1 w3 (rows ++ rows').
Proof.
  intros (Hname & Hrows & Hwf & Hother) (Hname' & Hrows' & Hwf' & Hother').
  unfold rows_added. rewrite Hname', Hname, Hrows', Hrows, Hother', Hother, app_assoc.
  repeat split. by apply Forall_app.
Qed.

Lemma dict_to_list_length (fieldnames : list string) (rowdict : gmap string pyval)
    (row : list pyval) :
  dict_to_list fieldnames rowdict = Ok row -> length row = length fieldnames.
Proof.
  unfold dict_to_list. destruct (forallb _ _); [|discriminate].
  intros [= <-]. apply length_fmap.
Qed.

(** The writer adds one row with a value per field name, or raises and adds
    none. *)
Lemma writerow_rows (n : fileno) (fieldnames : list string)
    (rowdict : gmap string pyval) (w : world) :
  exists rows,
    rows_added n fieldnames w (writerow n fieldnames rowdict w).2 rows ∧
    length rows = if is_ok (writerow n fieldnames rowdict w).1 then 1 else 0.
Proof.
  unfold writerow. rewrite bind_lift.
  destruct (dict_to_list fieldnames rowdict) as [row|e] eqn:Erow.
  - exists [row]. split; [|reflexivity].
    apply dict_to_list_length in Erow.
    destruct n; unfold rows_added; simpl; repeat split; by constructor.
  - exists []. split; [|reflexivity]. apply rows_added_same, same_reports_refl.
Qed.

(** A step that leaves the reports alone, followed by steps that fulfil [P],
    fulfils [P], provided a failure with the reports untouched does. *)
Lemma bind_keeps_reports {A B : Type} (P : res B * world -> Prop) (m : prog A)
    (f : A -> prog B) (w0 w : world) :
  (forall e w', same_reports w0 w' -> P (Raise e, w')) ->
  same_reports w0 w ->
  same_reports w (m w).2 ->
  (forall a w1, same_reports w0 w1 -> P (f a w1)) ->
  P ((m ≫= f) w).
Proof.
  intros Hfail Hw Hm Hf. unfold mbind, prog_bind.
  destruct (m w) as [[a|e] w1]; cbn [snd] in Hm.
  - apply Hf. by eapply same_reports_trans.
  - apply Hfail. by eapply same_reports_trans.
Qed.

Lemma lift_reports {A : Type} (r : res A) (w : world) : same_reports w (lift r w).2.
Proof. apply same_reports_refl. Qed.

Lemma print_reports (line : string) (w : world) : same_reports w (print line w).2.
Proof. by split. Qed.

Ltac keep_reports w0 :=
  apply (bind_keeps_reports _ _ _ w0);
  [ assumption
  | assumption
  | first [ apply lift_reports | apply print_reports | apply jsonload_reports
          | apply fetch_perfscore_reports ]
  | intros ? ? ? ].

Lemma appliance_body_effect (networks appliance : pyval) (w : world) :
  exists rows,
    rows_added File1 fieldnames1 w (appliance_body networks appliance w).2 rows ∧
    length rows = if is_ok (appliance_body networks appliance w).1 then 1 else 0.
Proof.
  set (P := fun out : res unit * world =>
              exists rows, rows_added File1 fieldnames1 w out.2 rows ∧
                           length rows = if is_ok out.1 then 1 else 0).
  assert (Hfail : forall e w', same_reports w w' -> P (Raise e, w')).
  { intros e w' Hsame. exists []. split; [by apply rows_added_same | reflexivity]. }
  pose proof (same_reports_refl w) as Hw.
  change (P (appliance_body networks appliance w)). unfold appliance_body.
  do 13 keep_reports w. unfold appliance_emit. do 2 keep_reports w.
  match goal with |- P (writerow ?n ?fns ?d ?w1) =>
    destruct (writerow_rows n fns d w1) as (rows & Hrows & Hlen) end.
  exists rows. split; [|exact Hlen].
  replace rows with ([] ++ rows)%list by reflexivity.
  eapply rows_added_compose; [|exact Hrows]. by apply rows_added_same.
Qed.

(** X13.  Whatever the networks, the inventory record and the endpoint are,
    the body of the appliances loop never changes the other devices report,
    never removes or alters a row of the appliances report, and adds to it
    exactly one row, with a value for each of the 27 field names, when it
    ends normally, and no row at all when it raises. *)
Theorem appliance_body_rows (networks appliance : pyval) (w : world) :
  exists rows,
    rows_added File1 fieldnames1 w (appliance_body networks appliance w).2 rows ∧
    length rows = if is_ok (appliance_body networks appliance w).1 then 1 else 0.
Proof. apply appliance_body_effect. Qed.

Lemma other_body_effect (networks device : pyval) (w : world) :
  exists rows,
    rows_added File2 fieldnames2 w (other_body networks device w).2 rows ∧
    length rows <= 1 ∧
    (is_ok (other_body networks device w).1 = false -> rows = []).
Proof.
  set (P := fun out : res unit * world =>
              exists rows, rows_added File2 fieldnames2 w out.2 rows ∧
                           length rows <= 1 ∧ (is_ok out.1 = false -> rows = [])).
  assert (Hfail : forall e w', same_reports w w' -> P (Raise e, w')).
  { intros e w' Hsame. exists []. split; [by apply rows_added_same|].
    split; [simpl; lia | done]. }
  pose proof (same_reports_refl w) as Hw.
  change (P (other_body networks device w)). unfold other_body.
  do 12 keep_reports w. unfold other_emit.
  destruct (py_eq _ _).
  - exists []. split; [by apply rows_added_same|]. split; [simpl; lia | done].
  - do 3 keep_reports w.
    match goal with |- P (writerow ?n ?fns ?d ?w1) =>
      destruct (writerow_rows n fns d w1) as (rows & Hrows & Hlen) end.
    exists rows. split; [|split].
    + replace rows with ([] ++ rows)%list by reflexivity.
      eapply rows_added_compose; [|exact Hrows]. by apply rows_added_same.
    + destruct (is_ok _); lia.
    + intros Hraise. cbn [fst] in Hraise. rewrite Hraise in Hlen.
      by destruct rows.
Qed.

(** X14.  Whatever it meets, the body of the loop over the other devices
    never changes the appliances report, never removes or alters a row of
    the other devices report, adds to it at most one row, with a value for
    each of the 13 field names, and adds none when it raises. *)
Theorem other_body_rows (networks device : pyval) (w : world) :
  exists rows,
    rows_added File2 fieldnames2 w (other_body networks device w).2 rows ∧
    length rows <= 1 ∧
    (is_ok (other_body networks device w).1 = false -> rows = []).
Proof. apply other_body_effect. Qed.

(** ** The reports of a run that ends normally *)






(** ** How much a device costs *)

Lemma requests_within_refl (w w' : world) :
  gets w' = gets w -> slept w' = slept w -> requests_within 0 w w'.
Proof.
  intros Hgets Hslept. unfold requests_within. rewrite Hslept.
  split; [exists []; by split | lia].
Qed.

Lemma requests_within_compose (k1 k2 : nat) (w1 w2 w3 : world) :
  requests_within k1 w1 w2 ->
  requests_within k2 w2 w3 ->
  requests_within (k1 + k2) w1 w3.
Proof.
  intros ((urls & Hurls & Hlen) & Hlo & Hhi) ((urls' & Hurls' & Hlen') & Hlo' & Hhi').
  split; [|lia]. exists (urls' ++ urls)%list. split.
  - by rewrite Hurls', Hurls, app_assoc.
  - rewrite length_app. lia.
Qed.

Lemma requests_within_weaken (k k' : nat) (w w' : world) :
  k <= k' -> requests_within k w w' -> requests_within k' w w'.
Proof.
  intros Hk ((urls & Hurls & Hlen) & Hlo & Hhi).
  split; [|lia]. exists urls. split; [exact Hurls | lia].
Qed.

Lemma bind_requests {A B : Type} (k1 k2 : nat) (m : prog A) (f : A -> prog B)
    (w : world) :
  requests_within k1 w (m w).2 ->
  (forall a w1, requests_within k2 w1 (f a w1).2) ->
  requests_within (k1 + k2) w ((m ≫= f) w).2.
Proof.
  intros Hm Hf. unfold mbind, prog_bind.
  destruct (m w) as [[a|e] w1]; cbn [snd] in *.
  - eapply requests_within_compose; [exact Hm | apply Hf].
  - eapply requests_within_weaken; [|exact Hm]. lia.
Qed.

Lemma lift_requests {A : Type} (r : res A) (w : world) :
  requests_within 0 w (lift r w).2.
Proof. by apply requests_within_refl. Qed.

Lemma print_requests (line : string) (w : world) :
  requests_within 0 w (print line w).2.
Proof. by apply requests_within_refl. Qed.

Lemma jsonload_requests (path : string) (w : world) :
  requests_within 3 w (jsonload path w).2.
Proof.
  destruct (jsonload_effect path w) as (n & [_ Hn] & Hgets & [Hlo Hhi] & _).
  split; [|lia]. exists (replicate n (url_of path)). split; [exact Hgets|].
  by rewrite length_replicate.
Qed.

Lemma fetch_perfscore_requests (appliance : pyval) (w : world) :
  requests_within 3 w (fetch_perfscore appliance w).2.
Proof.
  rewrite fetch_perfscore_total. cbn [snd]. unfold perfscore_request.
  apply (bind_requests 0 3); [apply lift_requests|]. intros path w1.
  apply (bind_requests 3 0); [apply jsonload_requests|]. intros performance w2.
  apply lift_requests.
Qed.

Lemma writerow_requests (n : fileno) (fieldnames : list string)
    (rowdict : gmap string pyval) (w : world) :
  requests_within 0 w (writerow n fieldnames rowdict w).2.
Proof.
  unfold writerow. rewrite bind_lift.
  destruct (dict_to_list fieldnames rowdict); apply requests_within_refl;
    by destruct n.
Qed.

Ltac within k1 k2 :=
  apply (bind_requests k1 k2);
  [ first [ apply lift_requests | apply print_requests | apply jsonload_requests
          | apply fetch_perfscore_requests ]
  | intros ? ? ].

Lemma appliance_body_requests (networks appliance : pyval) (w : world) :
  requests_within 9 w (appliance_body networks appliance w).2.
Proof.
  unfold appliance_body.
  do 6 within 0 9. within 3 6. within 0 6. within 3 3. do 3 within 0 3. within 3 0.
  unfold appliance_emit. do 2 within 0 0. apply writerow_requests.
Qed.

Lemma other_body_requests (networks device : pyval) (w : world) :
  requests_within 6 w (other_body networks device w).2.
Proof.
  unfold other_body.
  do 6 within 0 6. within 3 3. do 4 within 0 3. within 3 0.
  unfold other_emit. destruct (py_eq _ _).
  - by apply requests_within_refl.
  - do 3 within 0 0. apply writerow_requests.
Qed.

Lemma for_each_requests {A : Type} (k : nat) (body : A -> prog unit) (l : list A) :
  (forall x w, requests_within k w (body x w).2) ->
  forall w, requests_within (length l * k) w (for_each l body w).2.
Proof.
  intros Hbody. induction l as [|x l IH]; intros w.
  - by apply requests_within_refl.
  - cbn [for_each length Nat.mul].
    apply bind_requests; [apply Hbody | intros _ w1; apply IH].
Qed.

(** X16.  Whatever the endpoint does, the body of the appliances loop makes
    at most nine requests and sleeps at most nine seconds, the body of the
    loop over the other devices at most six and six; a loop over [n] devices
    stays within [n] times as much.  No request already made is forgotten
    and the clock never runs backwards. *)
Theorem requests_per_device (networks : pyval) (l : list pyval) (w : world) :
  (forall device, requests_within 9 w (appliance_body networks device w).2) ∧
  (forall device, requests_within 6 w (other_body networks device w).2) ∧
  requests_within (length l * 9) w (for_each l (appliance_body networks) w).2 ∧
  requests_within (length l * 6) w (for_each l (other_body networks) w).2.
Proof.
  split; [intros device; apply appliance_body_requests|].
  split; [intros device; apply other_body_requests|].
  split; apply for_each_requests; intros x w1.
  - apply appliance_body_requests.
  - apply other_body_requests.
Qed.

(** ** An uplink response that is no list *)

(** X17.  When the uplink request of a device is answered with a JSON
    object instead of a list (an error object, say), nothing is written for
    the device: in the loop over the other devices the object is not taken
    for an empty list, even when it is empty, and its subscript [0] raises
    KeyError; in the appliances loop the iteration runs over the keys of the
    object and the first of them raises TypeError. *)
Theorem uplink_object_aborts (network network_name device_name device_info perfscore
    device : pyval) (d : list (string * pyval)) (w : world) :
  other_emit network network_name device_name device (PDict d) w = (Raise KeyError, w) ∧
  (d ≠ [] ->
   appliance_emit network network_name device_name device_info perfscore device
     (PDict d) w = (Raise TypeError, w)).
Proof.
  split; [reflexivity|].
  intros Hd. destruct d as [|[k v] d]; [done|]. reflexivity.
Qed.

End Properties.

(** * The properties on the example organization *)

#[local] Existing Instance Demo.floats.
#[local] Existing Instance Demo.rt.

Local Open Scope nat_scope.

(** C5, on its failing input.  The run of the script on the example
    organization: the score of the gateway reaches the appliances report as the number the API delivered,
    which the writer renders unquoted, while the address reaches it as the
    text it was. *)
Lemma performance_is_not_stringified :
  (main "1" Demo.start).1 = Ok tt ∧
  file_rows (csv_file1 (main "1" Demo.start).2) !! 1 ≫= field fieldnames1 "Performance" =
    Some (PInt 42) ∧
  csv_cell (PInt 42) = (false, "42") ∧
  file_rows (csv_file1 (main "1" Demo.start).2) !! 1 ≫= field fieldnames1 "WAN1 IP" =
    Some (PStr "10.123.096.228") ∧
  csv_cell (PStr "10.123.096.228") = (true, "10.123.096.228").
Proof. vm_compute. done. Qed.

(** Two failures, then the organization: the third request succeeds. *)
Lemma jsonload_retry_bound_witness :
  (is_ok (jsonload "organizations/1" Demo.flaky).1 = true <-> 2 < 3) ∧
  (2 < 3 -> (jsonload "organizations/1" Demo.flaky).1 = Ok Demo.organization) ∧
  (3 ≤ 2 -> (jsonload "organizations/1" Demo.flaky).1 = Raise JSONDecodeError) ∧
  gets (jsonload "organizations/1" Demo.flaky).2 =
    (replicate (3 `min` 3) (url_of "organizations/1") ++ gets Demo.flaky)%list ∧
  slept (jsonload "organizations/1" Demo.flaky).2 = slept Demo.flaky + 2 `min` 3.
Proof.
  apply (jsonload_retry_bound "organizations/1" "organization" Demo.organization 2
           Demo.flaky).
  - discriminate.
  - reflexivity.
  - vm_compute. tauto.
Defined.

(** An empty body and a failure, then a page that is no JSON: three
    requests, one second of sleep, a parse failure. *)
Lemma jsonload_stops_at_first_body_witness :
  (jsonload "organizations/1" Demo.broken).1 = Raise JSONDecodeError ∧
  gets (jsonload "organizations/1" Demo.broken).2 =
    (replicate 3 (url_of "organizations/1") ++ gets Demo.broken)%list ∧
  slept (jsonload "organizations/1" Demo.broken).2 = slept Demo.broken + 1.
Proof.
  apply (jsonload_stops_at_first_body "organizations/1" [Body ""; TransientError]
           "<html>" Demo.broken).
  - repeat constructor.
  - simpl. lia.
  - discriminate.
  - vm_compute. tauto.
Defined.

(** The gateway is the appliance, the access point the other device, and
    the switch without a network is in neither list. *)
Lemma classify_partition_witness :
  classify Demo.inventory = Ok ([Demo.mx64], [Demo.mr33]).
Proof.
  destruct (classify_partition [Demo.mx64; Demo.mr33; Demo.ms120])
    as (appliances & devices & Hclassify & -> & -> & _).
  - repeat constructor.
  - exact Hclassify.
Defined.

(** An entry labelled 'LTE' goes into no bucket. *)
Lemma unrecognized_interface_dropped_witness :
  (forall info, dispatch info Demo.lte = Ok info) ∧
  (forall before after,
     normalize_appliance (PList (before ++ Demo.lte :: after)) =
     normalize_appliance (PList (before ++ after))).
Proof.
  apply (unrecognized_interface_dropped Demo.lte (PStr "LTE")).
  - reflexivity.
  - discriminate.
  - discriminate.
  - discriminate.
Defined.

(** Of two 'WAN 1' entries the second decides the status. *)
Lemma later_entry_overwrites_witness :
  exists info,
    normalize_appliance (PList [Demo.wan1; Demo.wan1_later; Demo.lte]) = Ok info ∧
    bucket BlockWAN1 info !! "status" = Some (PStr "Failed").
Proof.
  apply (later_entry_overwrites BlockWAN1 "status" (PStr "Failed") [Demo.wan1] [Demo.lte]
           Demo.wan1_later).
  - repeat constructor.
  - reflexivity.
  - reflexivity.
  - repeat constructor. discriminate.
Defined.

Lemma mx64_fetches_succeed (answers : list response) (perfscore : pyval) :
  answers = Demo.mx64_answers ∧ perfscore = PInt 42 ∨
  answers = Demo.mx64_answers_no_score ∧ perfscore = PNone ->
  appliance_fetches_succeed Demo.networks Demo.mx64 (Demo.mx64_world answers)
    (Demo.mx64_run answers perfscore).
Proof.
  intros [[-> ->] | [-> ->]];
    repeat split; try (vm_compute; reflexivity); repeat constructor.
Defined.

(** The gateway reports WAN 1 only: one row, its WAN 2 and cellular columns
    holding [None]. *)
Lemma appliance_completeness_witness :
  (appliance_body Demo.networks Demo.mx64 (Demo.mx64_world Demo.mx64_answers)).1 = Ok tt ∧
  file_rows (csv_file1 (appliance_body Demo.networks Demo.mx64
                          (Demo.mx64_world Demo.mx64_answers)).2) =
    [ar_row (Demo.mx64_run Demo.mx64_answers (PInt 42))] ∧
  field fieldnames1 "WAN2 Status" (ar_row (Demo.mx64_run Demo.mx64_answers (PInt 42))) =
    Some PNone ∧
  field fieldnames1 "Cellular IP" (ar_row (Demo.mx64_run Demo.mx64_answers (PInt 42))) =
    Some PNone.
Proof.
  destruct (appliance_completeness Demo.networks Demo.mx64
              (Demo.mx64_world Demo.mx64_answers)
              (Demo.mx64_run Demo.mx64_answers (PInt 42)))
    as (Hok & Hrows & _ & _ & Hblank).
  - apply mx64_fetches_succeed. by left.
  - split; [exact Hok|]. split; [exact Hrows|]. split.
    + apply (Hblank BlockWAN2); [repeat constructor; discriminate|].
      apply (bool_decide_unpack _). vm_compute. exact I.
    + apply (Hblank BlockCellular); [repeat constructor; discriminate|].
      apply (bool_decide_unpack _). vm_compute. exact I.
Defined.

(** The performance request is answered without a 'perfScore': KeyError,
    and the row is written with an empty Performance column. *)
Lemma performance_failure_keeps_row_witness :
  (appliance_body Demo.networks Demo.mx64
     (Demo.mx64_world Demo.mx64_answers_no_score)).1 = Ok tt ∧
  file_rows (csv_file1 (appliance_body Demo.networks Demo.mx64
                          (Demo.mx64_world Demo.mx64_answers_no_score)).2) =
    [ar_row (Demo.mx64_run Demo.mx64_answers_no_score PNone)] ∧
  field fieldnames1 "Performance" (ar_row (Demo.mx64_run Demo.mx64_answers_no_score PNone)) =
    Some restval.
Proof.
  destruct (performance_failure_keeps_row Demo.networks Demo.mx64
              (Demo.mx64_world Demo.mx64_answers_no_score)
              (Demo.mx64_run Demo.mx64_answers_no_score PNone) KeyError)
    as (Hok & Hrows & _ & Hperf & _).
  - apply mx64_fetches_succeed. by right.
  - vm_compute. reflexivity.
  - split; [exact Hok|]. split; [exact Hrows | exact Hperf].
Defined.

Lemma mr33_fetches_succeed :
  other_fetches_succeed Demo.networks Demo.mr33 (Demo.world0 Demo.table Demo.mr33_answers)
    Demo.mr33_run.
Proof. repeat split; try (vm_compute; reflexivity); repeat constructor. Defined.

(** The access point reports two entries: one row, from the first. *)
Lemma other_skip_law_witness :
  (other_body Demo.networks Demo.mr33 (Demo.world0 Demo.table Demo.mr33_answers)).1 =
    Ok tt ∧
  file_rows (csv_file2 (other_body Demo.networks Demo.mr33
                          (Demo.world0 Demo.table Demo.mr33_answers)).2) =
    [or_row Demo.mr33_run Demo.mr33_wired].
Proof.
  destruct (other_skip_law Demo.networks Demo.mr33
              (Demo.world0 Demo.table Demo.mr33_answers) Demo.mr33_run
              mr33_fetches_succeed) as [_ Hrow].
  destruct (Hrow Demo.mr33_wired [Demo.mr33_second] eq_refl) as (Hok & Hrows & _).
  split; [exact Hok | exact Hrows].
Defined.

(** C7 as stated fails: two network records carry the id 'N1', and the
    resolver raises nothing and returns the first. *)
Lemma get_network_two_matches :
  length (List.filter (id_matches (PStr "N1")) [Demo.hq; Demo.hq_again]) = 2 ∧
  get_network (PStr "N1") Demo.networks_twice = Ok Demo.hq.
Proof. vm_compute. done. Qed.

Lemma get_network_lookup_witness :
  get_network (PStr "N1") Demo.networks_twice = Ok Demo.hq.
Proof.
  destruct (get_network_lookup (PStr "N1") [Demo.hq; Demo.hq_again]) as [_ Hfirst].
  - repeat constructor.
  - apply (Hfirst Demo.hq [Demo.hq_again]). reflexivity.
Defined.

(** * The further properties on the example organization *)

(** One failure, then an exception that is not caught: two requests, one
    second. *)
Lemma jsonload_propagates_other_errors_witness :
  (jsonload "organizations/1" Demo.refused).1 = Raise TransportError ∧
  gets (jsonload "organizations/1" Demo.refused).2 =
    (replicate 2 (url_of "organizations/1") ++ gets Demo.refused)%list ∧
  slept (jsonload "organizations/1" Demo.refused).2 = slept Demo.refused + 1.
Proof.
  apply (jsonload_propagates_other_errors "organizations/1" [TransientError]
           Demo.refused).
  - repeat constructor.
  - simpl. lia.
  - vm_compute. tauto.
Defined.

(** Two empty bodies around a failure: three requests, one second, a parse
    failure. *)
Lemma jsonload_gives_up_witness :
  (jsonload "organizations/1" Demo.silent).1 = Raise JSONDecodeError ∧
  gets (jsonload "organizations/1" Demo.silent).2 =
    (replicate 3 (url_of "organizations/1") ++ gets Demo.silent)%list ∧
  slept (jsonload "organizations/1" Demo.silent).2 = slept Demo.silent + 1.
Proof.
  apply (jsonload_gives_up "organizations/1" [Body ""; TransientError; Body ""]
           Demo.silent).
  - repeat constructor.
  - reflexivity.
  - vm_compute. tauto.
Defined.

(** An error object has no name: the script exits after one request. *)
Lemma main_exits_on_organization_failure_witness :
  main "1" Demo.unauthorized =
    (Raise (SystemExit exit_message), (organization_name "1" Demo.unauthorized).2) ∧
  gets (organization_name "1" Demo.unauthorized).2 = [url_of "organizations/1"].
Proof.
  destruct (main_exits_on_organization_failure "1" Demo.unauthorized KeyError)
    as (Hmain & _ & _ & _).
  - vm_compute. reflexivity.
  - split; [exact Hmain | vm_compute; reflexivity].
Defined.

Lemma get_network_sound_witness :
  exists before after,
    Demo.networks_twice = PList (before ++ Demo.hq :: after) ∧
    id_matches (PStr "N1") Demo.hq = true ∧
    Forall (fun element => id_matches (PStr "N1") element = false) before ∧
    Forall (fun element => is_ok (getitem element "id") = true)
      (before ++ Demo.hq :: after).
Proof.
  apply (get_network_sound (PStr "N1") Demo.networks_twice Demo.hq). reflexivity.
Defined.

Lemma classify_sound_witness :
  [Demo.mx64] `sublist_of` [Demo.mx64; Demo.mr33; Demo.ms120] ∧
  [Demo.mr33] `sublist_of` [Demo.mx64; Demo.mr33; Demo.ms120] ∧
  py_eq Demo.mx64 Demo.mr33 = false.
Proof.
  destruct (classify_sound Demo.inventory [Demo.mx64] [Demo.mr33])
    as (devs & Hiter & Happs & Hdevs & _ & Hothers).
  - vm_compute. reflexivity.
  - injection Hiter as <-. split; [exact Happs|]. split; [exact Hdevs|].
    apply (Hothers Demo.mr33); by left.
Defined.

Lemma normalize_appliance_reports_witness :
  exists info,
    normalize_appliance (PList [Demo.wan1; Demo.wan1_later; Demo.lte]) = Ok info ∧
    forall (b : block) (k : string),
      k ∈ block_keys b ->
      bucket b info !! k =
        Some (column_of (last_reported b k [Demo.wan1; Demo.wan1_later; Demo.lte])).
Proof.
  apply (normalize_appliance_reports [Demo.wan1; Demo.wan1_later; Demo.lte]).
  repeat constructor.
Defined.

(** The address of the gateway reaches its column as it is. *)
Lemma appliance_row_columns_witness :
  last (file_rows (csv_file1 (appliance_body Demo.networks Demo.mx64
                                (Demo.mx64_world Demo.mx64_answers)).2))
    ≫= field fieldnames1 "WAN1 IP" = Some (PStr "10.123.096.228").
Proof.
  apply (appliance_row_columns Demo.networks Demo.mx64
           (Demo.mx64_world Demo.mx64_answers)
           (Demo.mx64_run Demo.mx64_answers (PInt 42))
           (mx64_fetches_succeed _ _ (or_introl (conj eq_refl eq_refl)))
           "WAN1 IP" BlockWAN1 "ip").
  apply (bool_decide_unpack _). vm_compute. exact I.
Defined.

(** The VLAN of the access point, a number, reaches its column as text. *)
Lemma other_row_columns_witness :
  last (file_rows (csv_file2 (other_body Demo.networks Demo.mr33
                                (Demo.world0 Demo.table Demo.mr33_answers)).2))
    ≫= field fieldnames2 "VLAN" = Some (PStr "7").
Proof.
  apply (other_row_columns Demo.networks Demo.mr33
           (Demo.world0 Demo.table Demo.mr33_answers) Demo.mr33_run
           Demo.mr33_wired [Demo.mr33_second] mr33_fetches_succeed eq_refl
           "VLAN" "vlan").
  apply (bool_decide_unpack _). vm_compute. exact I.
Defined.

(** The gateway has a name. *)
Lemma appliance_device_column_witness :
  exists device_name,
    last (file_rows (csv_file1 (appliance_body Demo.networks Demo.mx64
                                  (Demo.mx64_world Demo.mx64_answers)).2))
      ≫= field fieldnames1 "Device" = Some device_name ∧
    (getitem Demo.mx64_detail "name" = Ok device_name ∨
     getitem Demo.mx64_detail "name" = Raise KeyError ∧
     getitem Demo.mx64_detail "serial" = Ok device_name).
Proof.
  apply (appliance_device_column Demo.networks Demo.mx64
           (Demo.mx64_world Demo.mx64_answers)
           (Demo.mx64_run Demo.mx64_answers (PInt 42))
           (mx64_fetches_succeed _ _ (or_introl (conj eq_refl eq_refl)))).
Defined.

(** The access point has none: its serial stands in. *)
Lemma other_device_column_witness :
  exists device_name,
    last (file_rows (csv_file2 (other_body Demo.networks Demo.mr33
                                  (Demo.world0 Demo.table Demo.mr33_answers)).2))
      ≫= field fieldnames2 "Device" = Some device_name ∧
    (getitem Demo.mr33_detail "name" = Ok device_name ∨
     getitem Demo.mr33_detail "name" = Raise KeyError ∧
     getitem Demo.mr33_detail "serial" = Ok device_name).
Proof.
  apply (other_device_column Demo.networks Demo.mr33
           (Demo.world0 Demo.table Demo.mr33_answers) Demo.mr33_run
           mr33_fetches_succeed).
  discriminate.
Defined.

(** A gateway whose name is null: TypeError, and no row. *)
Lemma name_not_a_string_aborts_witness :
  (appliance_body Demo.networks Demo.mx64 Demo.unnamed).1 = Raise TypeError ∧
  (other_body Demo.networks Demo.mx64 Demo.unnamed).1 = Raise TypeError ∧
  file_rows (csv_file1 (appliance_body Demo.networks Demo.mx64 Demo.unnamed).2) = [].
Proof.
  destruct (name_not_a_string_aborts Demo.networks Demo.mx64 Demo.hq Demo.unnamed_detail
              PNone "N1" "Q2XX-0001" "HQ" Demo.unnamed
              (jsonload "networks/N1/devices/Q2XX-0001"
                 (print "Looking into network HQ" Demo.unnamed).2).2)
    as (Happliance & Hother & [Hfile _] & _); try (vm_compute; reflexivity).
  - discriminate.
  - rewrite Happliance, Hother. cbn [fst snd]. by rewrite Hfile.
Defined.


(** An error object in place of the uplink list. *)
Lemma uplink_object_aborts_witness :
  other_emit Demo.hq (PStr "HQ") (PStr "gateway") Demo.mx64
    (PDict [("errors", PList [])]) Demo.start = (Raise KeyError, Demo.start) ∧
  appliance_emit Demo.hq (PStr "HQ") (PStr "gateway") Demo.mx64_detail PNone Demo.mx64
    (PDict [("errors", PList [])]) Demo.start = (Raise TypeError, Demo.start).
Proof.
  destruct (uplink_object_aborts Demo.hq (PStr "HQ") (PStr "gateway") Demo.mx64_detail
              PNone Demo.mx64 [("errors", PList [])] Demo.start) as [Hother Happliance].
  split; [exact Hother | apply Happliance; discriminate].
Defined.
